(** * The Vault core ([vault/core.go]) as Rocq functions

    The Go file implements the [Core] of a secret store: the seal state
    machine ([Unseal], [Seal], [postUnseal], [preSeal]), the request pipeline
    ([HandleRequest], [handleRequest], [handleLoginRequest], [checkToken]),
    leader discovery ([Leader]) and the HA standby loop ([runStandby]).

    Embedding.
    - The mutable fields of the Go [Core] struct that [core.go] itself reads
      and writes form the record [Core].
    - Everything [core.go] calls but does not define (the security barrier,
      the physical backend, the router, the token, policy, expiration and
      audit subsystems, the mount set-up methods of the other files of the
      package, the HA lock) is a field of the record [Env].  A collaborator
      is stateful, so each of its methods receives the [History] of all
      collaborator calls made so far and answers from it; every call is
      appended to that history.  The history is thus both the state of the
      outside world and a trace against which "was called" is stated.
    - A Go method with receiver [c *Core] becomes a computation in the state
      monad [M] over [State] (the core fields and the history).  A Go result
      [(v, error)] is a pair whose error component is an [option error]
      ([None] is [nil]).
    - [c.logger.Printf] is the call [Log] carrying the format string.
    - Structs passed by pointer ([*logical.Request], [*logical.Response],
      [*logical.Auth]) are values: a field assignment of [core.go] builds
      the updated value, which is the one used from then on, and a
      collaborator is taken not to write to the structs it is handed.
    - Not represented: the [metrics.MeasureSince] timers, and the
      reader/writer lock [stateLock] (each method is modelled as running
      alone; the [select]s of the standby loop take their outcome from
      [Env]).  [Initialize] and [NewCore] are not needed below and are left
      out. *)

From Stdlib Require Import String Ascii List ZArith Bool Lia DecimalString.
From Stdlib.Strings Require Import Byte.
Import ListNotations.

Local Open Scope string_scope.
Local Open Scope Z_scope.

(** ** Go base types *)

(** [[]byte] *)
Definition bytes : Type := list byte.

(** [bytes.Equal]: same length and same contents ([nil] equals the empty slice). *)
Fixpoint bytes_Equal (a b : bytes) : bool :=
  match a, b with
  | [], [] => true
  | x :: a', y :: b' => Byte.eqb x y && bytes_Equal a' b'
  | _, _ => false
  end.

(** [len] of a slice, as a Go [int]. *)
Definition len {A : Type} (l : list A) : Z := Z.of_nat (length l).

(** Go's [int] on the 64-bit targets Vault is built for: two's complement
    wrap-around of an arithmetic result. *)
Definition wrap_int (z : Z) : Z := (z + 2 ^ 63) mod 2 ^ 64 - 2 ^ 63.

(** [%d] of [fmt.Sprintf]. *)
Definition fmt_d (z : Z) : string := NilZero.string_of_int (Z.to_int z).

(** [strings.HasPrefix s prefix] *)
Definition strings_HasPrefix (s prefix : string) : bool := String.prefix prefix s.

(** [strings.TrimPrefix s prefix] *)
Definition strings_TrimPrefix (s prefix : string) : string :=
  if String.prefix prefix s
  then String.substring (String.length prefix)
                        (String.length s - String.length prefix) s
  else s.

(** [strings.TrimSuffix s suffix] *)
Definition strings_TrimSuffix (s suffix : string) : string :=
  let n := String.length s in
  let k := String.length suffix in
  if (k <=? n)%nat && String.eqb (String.substring (n - k) k s) suffix
  then String.substring 0 (n - k) s
  else s.

(** [strings.Replace s old new -1] for one-character [old] and [new]. *)
Fixpoint strings_ReplaceChar (s : string) (old new : ascii) : string :=
  match s with
  | EmptyString => EmptyString
  | String a s' =>
      String (if Ascii.eqb a old then new else a) (strings_ReplaceChar s' old new)
  end.

(** A Go channel of [struct{}] as far as [core.go] can tell its states apart. *)
Inductive Chan : Type := ChanNil | ChanOpen | ChanClosed.

(** ** Constants of [core.go] *)

Definition coreSealConfigPath : string := "core/seal-config".
Definition coreLockPath : string := "core/lock".
Definition coreLeaderPrefix : string := "core/leader/".

(** ** Errors

    The sentinel errors of [core.go] and of the [logical] package are
    compared by identity in Go; each is a constructor here.  [Errorf] is a
    fresh error value made by [fmt.Errorf] (or by a collaborator) and is
    never identical to a sentinel.  [ErrPermissionDenied] and
    [ErrInvalidRequest] are the two sentinels of the [logical] package. *)
Inductive error : Type :=
| ErrSealed
| ErrStandby
| ErrAlreadyInit
| ErrNotInit
| ErrInternalError
| ErrHANotEnabled
| ErrInvalidKey (Reason : string)
| ErrPermissionDenied
| ErrInvalidRequest
| Errorf (msg : string).

(** ** Structs *)

Record SealConfig : Type := mkSealConfig {
  SecretShares : Z;
  SecretThreshold : Z
}.

(** [physical.Entry] and the barrier's [Entry]: a key and a value. *)
Record Entry : Type := mkEntry {
  Key : string;
  Value : bytes
}.

(** [logical.Operation] *)
Inductive Operation : Type :=
| ReadOperation | WriteOperation | DeleteOperation | ListOperation
| RevokeOperation | RenewOperation | RollbackOperation | HelpOperation.

(** The fields of [logical.Request] that [core.go] touches; [req_Data] is the
    body it passes through. *)
Record Request : Type := mkRequest {
  req_Operation : Operation;
  req_Path : string;
  req_ClientToken : string;
  req_DisplayName : string;
  req_Data : list (string * string)
}.

Record Secret : Type := mkSecret {
  secret_Lease : Z;
  secret_LeaseID : string
}.

Record Auth : Type := mkAuth {
  auth_ClientToken : string;
  auth_Policies : list string;
  auth_Metadata : list (string * string);
  auth_DisplayName : string;
  auth_Lease : Z
}.

(** [*logical.Response]; the pointers [Secret] and [Auth] may be [nil]. *)
Record Response : Type := mkResponse {
  resp_Secret : option Secret;
  resp_Auth : option Auth;
  resp_Data : list (string * string)
}.

Record TokenEntry : Type := mkTokenEntry {
  te_ID : string;
  te_Path : string;
  te_Policies : list string;
  te_Meta : list (string * string);
  te_DisplayName : string
}.

(** The compiled [*ACL] a policy store hands out: its two queries. *)
Record ACL : Type := mkACL {
  RootPrivilege : string -> bool;
  AllowOperation : Operation -> string -> bool
}.

(** Modelled from the spec: [logical.ErrorResponse] is defined in the
    [logical] package, not in [core.go]; the spec says the original message
    is carried in the response body for the client. *)
Definition ErrorResponse (text : string) : Response :=
  mkResponse None None [("error", text)].

(** Modelled from the spec: [strListContains] is a helper of another file of
    the package; by its name and its use ("not a root policy holder") it is
    membership of a string in a list of strings. *)
Definition strListContains (haystack : list string) (needle : string) : bool :=
  existsb (String.eqb needle) haystack.

(** ** The core's own state *)

Record Core : Type := mkCore {
  ha : bool;                      (* [c.ha != nil] *)
  advertiseAddr : string;
  physical_is_cache : bool;       (* [c.physical.( *physical.Cache )] succeeds *)
  sealed : bool;
  standby : bool;
  standbyDoneCh : Chan;
  standbyStopCh : Chan;
  unlockParts : list bytes;
  metricsCh : Chan
}.

Definition set_sealed (b : bool) (c : Core) : Core :=
  mkCore (ha c) (advertiseAddr c) (physical_is_cache c) b (standby c)
         (standbyDoneCh c) (standbyStopCh c) (unlockParts c) (metricsCh c).

Definition set_standby (b : bool) (c : Core) : Core :=
  mkCore (ha c) (advertiseAddr c) (physical_is_cache c) (sealed c) b
         (standbyDoneCh c) (standbyStopCh c) (unlockParts c) (metricsCh c).

Definition set_standbyDoneCh (ch : Chan) (c : Core) : Core :=
  mkCore (ha c) (advertiseAddr c) (physical_is_cache c) (sealed c) (standby c)
         ch (standbyStopCh c) (unlockParts c) (metricsCh c).

Definition set_standbyStopCh (ch : Chan) (c : Core) : Core :=
  mkCore (ha c) (advertiseAddr c) (physical_is_cache c) (sealed c) (standby c)
         (standbyDoneCh c) ch (unlockParts c) (metricsCh c).

Definition set_unlockParts (ps : list bytes) (c : Core) : Core :=
  mkCore (ha c) (advertiseAddr c) (physical_is_cache c) (sealed c) (standby c)
         (standbyDoneCh c) (standbyStopCh c) ps (metricsCh c).

Definition set_metricsCh (ch : Chan) (c : Core) : Core :=
  mkCore (ha c) (advertiseAddr c) (physical_is_cache c) (sealed c) (standby c)
         (standbyDoneCh c) (standbyStopCh c) (unlockParts c) ch.

(** ** Calls to the collaborators

    One constructor per method [core.go] calls on a collaborator, with the
    arguments of the call.  Besides these: [Log] is a line handed to the
    logger; [Go_emitMetrics] and [Go_runStandby] are the two [go]
    statements; [Close_metricsCh] and [Recv_standbyDoneCh] are the channel
    operations on the core's own channels that another goroutine observes;
    [Select_Stop], [Select_Leader_Stop] and [Select_Retry_Stop] are the
    three [select]s of the standby loop; [Memzero] is the deferred zeroing
    of the master key. *)
Inductive Call : Type :=
| Log (format : string)
| Cache_Purge
| LoadMounts | SetupMounts | StartRollback | SetupPolicyStore
| LoadCredentials | SetupCredentials | SetupExpiration | LoadAudits | SetupAudits
| Go_emitMetrics
| Close_metricsCh
| TeardownAudits | StopExpiration | TeardownCredentials | TeardownPolicyStore
| StopRollback | UnloadMounts
| Barrier_KeyLength
| Barrier_Unseal (key : bytes)
| Barrier_Seal
| Barrier_Get (key : string)
| Barrier_Put (entry : Entry)
| Barrier_Delete (key : string)
| Physical_Get (key : string)
| Memzero (b : bytes)
| TokenStore_Lookup (id : string)
| TokenStore_UseToken (te : TokenEntry)
| TokenStore_Create (te : TokenEntry)
| Policy_ACL (names : list string)
| Router_LoginPath (path : string)
| Router_RootPath (path : string)
| Router_MatchingMount (path : string)
| Router_Route (req : Request)
| Expiration_Register (req : Request) (resp : Response)
| Expiration_RegisterAuth (source : string) (auth : Auth)
| Audit_LogRequest (auth : option Auth) (req : Request)
| Audit_LogResponse (auth : option Auth) (req : Request)
                    (resp : option Response) (err : option error)
| GenerateUUID
| HA_LockWith (key value : string)
| Lock_Lock
| Lock_Unlock
| Lock_Value
| Go_runStandby
| Recv_standbyDoneCh
| Select_Stop
| Select_Leader_Stop
| Select_Retry_Stop.

Definition History : Type := list Call.

(** Which case of a blocking [select] fired. *)
Inductive Wake : Type := LeaderLost | StopSignalled.
Inductive Retry : Type := TimerFired | StopFired.

(** ** The collaborators

    What [core.go] uses and does not define.  The first six fields are
    constants of other files and packages (the last two are the texts of
    the [logical] package's sentinel errors); [json_Unmarshal] and
    [shamir_Combine] are pure library functions; all others answer from the
    history. *)
Record Env : Type := mkEnv {
  defaultLeaseDuration : Z;
  maxLeaseDuration : Z;
  shamir_ShareOverhead : Z;
  credentialRoutePrefix : string;
  ErrPermissionDenied_text : string;
  ErrInvalidRequest_text : string;
  json_Unmarshal : bytes -> SealConfig * option error;
  shamir_Combine : list bytes -> bytes * option error;
  (* SecurityBarrier *)
  barrier_KeyLength : History -> Z * Z;
  barrier_Unseal : History -> bytes -> option error;
  barrier_Seal : History -> option error;
  barrier_Get : History -> string -> option Entry * option error;
  barrier_Put : History -> Entry -> option error;
  barrier_Delete : History -> string -> option error;
  (* physical.Backend *)
  physical_Get : History -> string -> option Entry * option error;
  (* set-up and tear-down methods of Core defined in other files *)
  loadMounts : History -> option error;
  setupMounts : History -> option error;
  startRollback : History -> option error;
  setupPolicyStore : History -> option error;
  loadCredentials : History -> option error;
  setupCredentials : History -> option error;
  setupExpiration : History -> option error;
  loadAudits : History -> option error;
  setupAudits : History -> option error;
  teardownAudits : History -> option error;
  stopExpiration : History -> option error;
  teardownCredentials : History -> option error;
  teardownPolicyStore : History -> option error;
  stopRollback : History -> option error;
  unloadMounts : History -> option error;
  (* TokenStore, PolicyStore *)
  tokenStore_Lookup : History -> string -> option TokenEntry * option error;
  tokenStore_UseToken : History -> TokenEntry -> option error;
  tokenStore_Create : History -> TokenEntry -> string * option error;
  policy_ACL : History -> list string -> ACL * option error;
  (* Router *)
  router_LoginPath : History -> string -> bool;
  router_RootPath : History -> string -> bool;
  router_MatchingMount : History -> string -> string;
  router_Route : History -> Request -> option Response * option error;
  (* ExpirationManager, AuditBroker *)
  expiration_Register : History -> Request -> Response -> string * option error;
  expiration_RegisterAuth : History -> string -> Auth -> option error;
  auditBroker_LogRequest : History -> option Auth -> Request -> option error;
  auditBroker_LogResponse :
    History -> option Auth -> Request -> option Response -> option error -> option error;
  (* HA backend, its lock, and the scheduler *)
  generateUUID : History -> string;
  ha_LockWith : History -> string -> string -> option error;
  lock_Lock : History -> bool * option error;
  lock_Value : History -> bool * string * option error;
  select_stop : History -> bool;
  select_leader_stop : History -> Wake;
  select_retry_stop : History -> Retry
}.

(** ** The state monad *)

Record State : Type := mkState {
  core : Core;
  calls : History
}.

Definition M (A : Type) : Type := State -> A * State.

Definition ret {A : Type} (a : A) : M A := fun s => (a, s).

Definition bind {A B : Type} (m : M A) (k : A -> M B) : M B :=
  fun s => let (a, s') := m s in k a s'.

Notation "x <- m ;; k" := (bind m (fun x => k))
  (at level 61, m at next level, right associativity).
Notation "m ;;; k" := (bind m (fun _ => k))
  (at level 61, right associativity).

(** Read the core's fields. *)
Definition getCore : M Core := fun s => (core s, s).

(** Assign to the core's fields. *)
Definition setCore (f : Core -> Core) : M unit :=
  fun s => (tt, mkState (f (core s)) (calls s)).

(** Call a collaborator: it answers from the history so far, and the call
    is recorded. *)
Definition call {A : Type} (answer : History -> A) (c : Call) : M A :=
  fun s => (answer (calls s), mkState (core s) (calls s ++ [c])%list).

(** A call that returns nothing. *)
Definition call_ (c : Call) : M unit := call (fun _ => tt) c.

Definition logger_Printf (format : string) : M unit := call_ (Log format).

(** [if err := m; err != nil { handler err } ; rest] *)
Definition ifErr {A : Type} (m : M (option error))
    (handler : error -> M A) (rest : M A) : M A :=
  err <- m ;;
  match err with
  | Some e => handler e
  | None => rest
  end.

Notation "'IfErr' m 'Then' e => h 'Else' k" := (ifErr m (fun e => h) k)
  (at level 61, m at next level, e name, h at next level, right associativity).

(** ** [SealConfig.Validate] *)
Definition SealConfig_Validate (s : SealConfig) : option error :=
  if SecretShares s <? 1 then
    Some (Errorf "secret shares must be at least one")
  else if SecretThreshold s <? 1 then
    Some (Errorf "secret threshold must be at least one")
  else if SecretShares s >? 255 then
    Some (Errorf "secret shares must be less than 256")
  else if SecretThreshold s >? 255 then
    Some (Errorf "secret threshold must be less than 256")
  else if SecretThreshold s >? SecretShares s then
    Some (Errorf "secret threshold cannot be larger than secret shares")
  else None.

(** ** Field assignments on the request and response structs *)

Definition set_req_DisplayName (n : string) (r : Request) : Request :=
  mkRequest (req_Operation r) (req_Path r) (req_ClientToken r) n (req_Data r).

Definition set_secret_Lease (l : Z) (s : Secret) : Secret :=
  mkSecret l (secret_LeaseID s).

Definition set_secret_LeaseID (id : string) (s : Secret) : Secret :=
  mkSecret (secret_Lease s) id.

Definition set_auth_ClientToken (t : string) (a : Auth) : Auth :=
  mkAuth t (auth_Policies a) (auth_Metadata a) (auth_DisplayName a) (auth_Lease a).

Definition set_auth_DisplayName (n : string) (a : Auth) : Auth :=
  mkAuth (auth_ClientToken a) (auth_Policies a) (auth_Metadata a) n (auth_Lease a).

Definition set_auth_Lease (l : Z) (a : Auth) : Auth :=
  mkAuth (auth_ClientToken a) (auth_Policies a) (auth_Metadata a) (auth_DisplayName a) l.

Definition set_resp_Secret (s : option Secret) (r : Response) : Response :=
  mkResponse s (resp_Auth r) (resp_Data r).

Definition set_resp_Auth (a : option Auth) (r : Response) : Response :=
  mkResponse (resp_Secret r) a (resp_Data r).

(** A Go result [(v, error)] of a function of [core.go] all of whose
    [return]s give either a value and [nil], or [nil] and an error. *)
Inductive result (A : Type) : Type :=
| Ok (a : A)
| Err (e : error).
Arguments Ok {A} a.
Arguments Err {A} e.

(** A block of a function body that either [return]s from the function
    ([inl]) or falls through with the values it assigned ([inr]). *)
Definition orReturn {R A : Type} (block : M (R + A)) (rest : A -> M R) : M R :=
  x <- block ;;
  match x with
  | inl r => ret r
  | inr a => rest a
  end.

Notation "x <-? block ;; k" := (orReturn block (fun x => k))
  (at level 61, block at next level, right associativity).

Section CoreMethods.

Variable E : Env.

(** [err.Error()] *)
Definition Error (e : error) : string :=
  match e with
  | ErrSealed => "Vault is sealed"
  | ErrStandby => "Vault is in standby mode"
  | ErrAlreadyInit => "Vault is already initialized"
  | ErrNotInit => "Vault is not initialized"
  | ErrInternalError => "internal error"
  | ErrHANotEnabled => "Vault is not configured for highly-available mode"
  | ErrInvalidKey r => "invalid key: " ++ r
  | ErrPermissionDenied => ErrPermissionDenied_text E
  | ErrInvalidRequest => ErrInvalidRequest_text E
  | Errorf m => m
  end.

(** ** [Core.SealConfig] *)
Definition Core_SealConfig : M (option SealConfig * option error) :=
  r <- call (fun h => physical_Get E h coreSealConfigPath)
            (Physical_Get coreSealConfigPath) ;;
  let (pe, err) := r in
  match err with
  | Some e =>
      logger_Printf "[ERR] core: failed to read seal configuration: %v" ;;;
      ret (None, Some (Errorf ("failed to check seal configuration: " ++ Error e)))
  | None =>
      match pe with
      | None =>
          logger_Printf "[INFO] core: seal configuration missing, not initialized" ;;;
          ret (None, None)
      | Some pe =>
          let (conf, err) := json_Unmarshal E (Value pe) in
          match err with
          | Some e =>
              logger_Printf "[ERR] core: failed to decode seal configuration: %v" ;;;
              ret (None, Some (Errorf ("failed to decode seal configuration: " ++ Error e)))
          | None =>
              match SealConfig_Validate conf with
              | Some e =>
                  logger_Printf "[ERR] core: invalid seal configuration: %v" ;;;
                  ret (None, Some (Errorf ("seal validation failed: " ++ Error e)))
              | None => ret (Some conf, None)
              end
          end
      end
  end.

(** ** [Core.Sealed], [Core.Standby], [Core.SecretProgress] *)
Definition Core_Sealed : M (bool * option error) :=
  c <- getCore ;; ret (sealed c, None).

Definition Core_Standby : M (bool * option error) :=
  c <- getCore ;; ret (standby c, None).

Definition SecretProgress : M Z :=
  c <- getCore ;; ret (len (unlockParts c)).

(** ** [Core.postUnseal] *)
Definition postUnseal : M (option error) :=
  logger_Printf "[INFO] core: post-unseal setup starting" ;;;
  c <- getCore ;;
  (if physical_is_cache c then call_ Cache_Purge else ret tt) ;;;
  IfErr call (loadMounts E) LoadMounts Then err => ret (Some err) Else
  IfErr call (setupMounts E) SetupMounts Then err => ret (Some err) Else
  IfErr call (startRollback E) StartRollback Then err => ret (Some err) Else
  IfErr call (setupPolicyStore E) SetupPolicyStore Then err => ret None Else
  IfErr call (loadCredentials E) LoadCredentials Then err => ret None Else
  IfErr call (setupCredentials E) SetupCredentials Then err => ret None Else
  IfErr call (setupExpiration E) SetupExpiration Then err => ret (Some err) Else
  IfErr call (loadAudits E) LoadAudits Then err => ret (Some err) Else
  IfErr call (setupAudits E) SetupAudits Then err => ret (Some err) Else
  setCore (set_metricsCh ChanOpen) ;;;
  call_ Go_emitMetrics ;;;
  logger_Printf "[INFO] core: post-unseal setup complete" ;;;
  ret None.

(** ** [Core.preSeal] *)
Definition preSeal : M (option error) :=
  logger_Printf "[INFO] core: pre-seal teardown starting" ;;;
  c <- getCore ;;
  (match metricsCh c with
   | ChanNil => ret tt
   | _ => call_ Close_metricsCh ;;; setCore (set_metricsCh ChanNil)
   end) ;;;
  IfErr call (teardownAudits E) TeardownAudits Then err => ret (Some err) Else
  IfErr call (stopExpiration E) StopExpiration Then err => ret (Some err) Else
  IfErr call (teardownCredentials E) TeardownCredentials Then err => ret (Some err) Else
  IfErr call (teardownPolicyStore E) TeardownPolicyStore Then err => ret (Some err) Else
  IfErr call (stopRollback E) StopRollback Then err => ret (Some err) Else
  IfErr call (unloadMounts E) UnloadMounts Then err => ret (Some err) Else
  c <- getCore ;;
  (if physical_is_cache c then call_ Cache_Purge else ret tt) ;;;
  logger_Printf "[INFO] core: pre-seal teardown complete" ;;;
  ret None.

(** ** [Core.Unseal] *)
Definition Unseal (key : bytes) : M (bool * option error) :=
  mm <- call (barrier_KeyLength E) Barrier_KeyLength ;;
  let (min, max0) := mm in
  let max := wrap_int (max0 + shamir_ShareOverhead E) in
  if len key <? min then
    ret (false, Some (ErrInvalidKey
                        ("key is shorter than minimum " ++ fmt_d min ++ " bytes")))
  else if len key >? max then
    ret (false, Some (ErrInvalidKey
                        ("key is longer than maximum " ++ fmt_d max ++ " bytes")))
  else
  r <- Core_SealConfig ;;
  let (config, err) := r in
  match err with
  | Some e => ret (false, Some e)
  | None =>
  match config with
  | None => ret (false, Some ErrNotInit)
  | Some config =>
  c <- getCore ;;
  if negb (sealed c) then ret (true, None) else
  if existsb (fun existing => bytes_Equal existing key) (unlockParts c)
  then ret (false, None) else
  setCore (set_unlockParts (unlockParts c ++ [key])%list) ;;;
  c <- getCore ;;
  if len (unlockParts c) <? SecretThreshold config then
    logger_Printf "[DEBUG] core: cannot unseal, have %d of %d keys" ;;;
    ret (false, None)
  else
  masterKey <-?
    (if SecretThreshold config =? 1 then
       setCore (set_unlockParts []) ;;;
       ret (inr (nth 0 (unlockParts c) []))
     else
       let (masterKey, err) := shamir_Combine E (unlockParts c) in
       setCore (set_unlockParts []) ;;;
       match err with
       | Some e =>
           ret (inl (false, Some (Errorf ("failed to compute master key: " ++ Error e))))
       | None => ret (inr masterKey)
       end) ;;
  (* [defer memzero(masterKey)] runs at each return below *)
  r <- (IfErr call (fun h => barrier_Unseal E h masterKey) (Barrier_Unseal masterKey)
        Then err => ret (false, Some err) Else
        logger_Printf "[INFO] core: vault is unsealed" ;;;
        c <- getCore ;;
        _ <-? (if negb (ha c) then
                 setCore (set_standby false) ;;;
                 IfErr postUnseal Then err =>
                   (logger_Printf "[ERR] core: post-unseal setup failed: %v" ;;;
                    _ <- call (barrier_Seal E) Barrier_Seal ;;
                    logger_Printf "[WARN] core: vault is sealed" ;;;
                    ret (inl (false, Some err)))
                 Else ret (inr tt)
               else
                 setCore (set_standbyDoneCh ChanOpen) ;;;
                 setCore (set_standbyStopCh ChanOpen) ;;;
                 call_ Go_runStandby ;;;
                 ret (inr tt)) ;;
        setCore (set_sealed false) ;;;
        ret (true, None)) ;;
  call_ (Memzero masterKey) ;;;
  ret r
  end
  end.

(** ** [Core.checkToken] *)
Definition checkToken (op : Operation) (path token : string) : M (result Auth) :=
  if String.eqb token "" then
    ret (Err (Errorf "missing client token"))
  else
  r <- call (fun h => tokenStore_Lookup E h token) (TokenStore_Lookup token) ;;
  let (te, err) := r in
  match err with
  | Some _ =>
      logger_Printf "[ERR] core: failed to lookup token: %v" ;;;
      ret (Err ErrInternalError)
  | None =>
  match te with
  | None => ret (Err ErrPermissionDenied)
  | Some te =>
  IfErr call (fun h => tokenStore_UseToken E h te) (TokenStore_UseToken te)
  Then err =>
    (logger_Printf "[ERR] core: failed to use token: %v" ;;;
     ret (Err ErrInternalError))
  Else
  r <- call (fun h => policy_ACL E h (te_Policies te)) (Policy_ACL (te_Policies te)) ;;
  let (acl, err) := r in
  match err with
  | Some _ =>
      logger_Printf "[ERR] core: failed to construct ACL: %v" ;;;
      ret (Err ErrInternalError)
  | None =>
  rootPath <- call (fun h => router_RootPath E h path) (Router_RootPath path) ;;
  if rootPath && negb (RootPrivilege acl path) then
    ret (Err ErrPermissionDenied)
  else if negb (AllowOperation acl op path) then
    ret (Err ErrPermissionDenied)
  else
    ret (Ok (mkAuth token (te_Policies te) (te_Meta te) (te_DisplayName te) 0))
  end
  end
  end.

(** ** [Core.handleRequest]: the authenticated path *)
Definition handleRequest (req : Request) : M (option Response * option error) :=
  r <- checkToken (req_Operation req) (req_Path req) (req_ClientToken req) ;;
  match r with
  | Err err =>
      let errType :=
        match err with
        | ErrInternalError | ErrPermissionDenied => err
        | _ => ErrInvalidRequest
        end in
      ret (Some (ErrorResponse (Error err)), Some errType)
  | Ok auth =>
  let req := set_req_DisplayName (auth_DisplayName auth) req in
  IfErr call (fun h => auditBroker_LogRequest E h (Some auth) req)
             (Audit_LogRequest (Some auth) req)
  Then err =>
    (logger_Printf "[ERR] core: failed to audit request (%#v): %v" ;;;
     ret (None, Some ErrInternalError))
  Else
  r <- call (fun h => router_Route E h req) (Router_Route req) ;;
  let (resp, err) := r in
  resp <-?
    (match resp with
     | Some rp =>
         match resp_Secret rp with
         | Some sec =>
             let sec := if secret_Lease sec =? 0
                        then set_secret_Lease (defaultLeaseDuration E) sec else sec in
             let sec := if secret_Lease sec >? maxLeaseDuration E
                        then set_secret_Lease (maxLeaseDuration E) sec else sec in
             let rp := set_resp_Secret (Some sec) rp in
             r <- call (fun h => expiration_Register E h req rp)
                       (Expiration_Register req rp) ;;
             let (leaseID, err) := r in
             match err with
             | Some _ =>
                 logger_Printf ("[ERR] core: failed to register lease " ++
                                "(request: %#v, response: %#v): %v") ;;;
                 ret (inl (None, Some ErrInternalError))
             | None =>
                 ret (inr (Some (set_resp_Secret
                                   (Some (set_secret_LeaseID leaseID sec)) rp)))
             end
         | None => ret (inr resp)
         end
     | None => ret (inr resp)
     end) ;;
  resp <-?
    (match resp with
     | Some rp =>
         match resp_Auth rp with
         | Some a =>
             if negb (strings_HasPrefix (req_Path req) "auth/token/") then
               logger_Printf ("[ERR] core: unexpected Auth response for non-token backend " ++
                              "(request: %#v, response: %#v)") ;;;
               ret (inl (None, Some ErrInternalError))
             else
             let a := if (auth_Lease a =? 0) && negb (strListContains (auth_Policies a) "root")
                      then set_auth_Lease (defaultLeaseDuration E) a else a in
             let a := if auth_Lease a >? maxLeaseDuration E
                      then set_auth_Lease (maxLeaseDuration E) a else a in
             let rp := set_resp_Auth (Some a) rp in
             IfErr call (fun h => expiration_RegisterAuth E h (req_Path req) a)
                        (Expiration_RegisterAuth (req_Path req) a)
             Then err =>
               (logger_Printf ("[ERR] core: failed to register token lease " ++
                               "(request: %#v, response: %#v): %v") ;;;
                ret (inl (None, Some ErrInternalError)))
             Else ret (inr (Some rp))
         | None => ret (inr resp)
         end
     | None => ret (inr resp)
     end) ;;
  IfErr call (fun h => auditBroker_LogResponse E h (Some auth) req resp err)
             (Audit_LogResponse (Some auth) req resp err)
  Then e =>
    (logger_Printf
       "[ERR] core: failed to audit response (request: %#v, response: %#v): %v" ;;;
     ret (None, Some ErrInternalError))
  Else
  ret (resp, err)
  end.

(** ** [Core.handleLoginRequest]: the unauthenticated path *)
Definition handleLoginRequest (req : Request) : M (option Response * option error) :=
  IfErr call (fun h => auditBroker_LogRequest E h None req) (Audit_LogRequest None req)
  Then err =>
    (logger_Printf "[ERR] core: failed to audit request (%#v): %v" ;;;
     ret (None, Some ErrInternalError))
  Else
  r <- call (fun h => router_Route E h req) (Router_Route req) ;;
  let (resp, err) := r in
  x <-?
    (match resp with
     | Some rp =>
         match resp_Auth rp with
         | Some auth =>
             source <- call (fun h => router_MatchingMount E h (req_Path req))
                            (Router_MatchingMount (req_Path req)) ;;
             let source := strings_TrimPrefix source (credentialRoutePrefix E) in
             let source := strings_ReplaceChar source "/"%char "-"%char in
             let auth := set_auth_DisplayName
                           (strings_TrimSuffix (source ++ auth_DisplayName auth) "-") auth in
             let te := mkTokenEntry "" (req_Path req) (auth_Policies auth)
                                    (auth_Metadata auth) (auth_DisplayName auth) in
             r <- call (fun h => tokenStore_Create E h te) (TokenStore_Create te) ;;
             let (id, err) := r in
             match err with
             | Some _ =>
                 logger_Printf "[ERR] core: failed to create token: %v" ;;;
                 ret (inl (None, Some ErrInternalError))
             | None =>
             let auth := set_auth_ClientToken id auth in
             let auth := if (auth_Lease auth =? 0)
                            && negb (strListContains (auth_Policies auth) "root")
                         then set_auth_Lease (defaultLeaseDuration E) auth else auth in
             let auth := if auth_Lease auth >? maxLeaseDuration E
                         then set_auth_Lease (maxLeaseDuration E) auth else auth in
             IfErr call (fun h => expiration_RegisterAuth E h (req_Path req) auth)
                        (Expiration_RegisterAuth (req_Path req) auth)
             Then err =>
               (logger_Printf ("[ERR] core: failed to register token lease " ++
                               "(request: %#v, response: %#v): %v") ;;;
                ret (inl (None, Some ErrInternalError)))
             Else
             ret (inr (Some auth, set_req_DisplayName (auth_DisplayName auth) req,
                       Some (set_resp_Auth (Some auth) rp)))
             end
         | None => ret (inr (None, req, resp))
         end
     | None => ret (inr (None, req, resp))
     end) ;;
  let '(auth, req, resp) := x in
  IfErr call (fun h => auditBroker_LogResponse E h auth req resp err)
             (Audit_LogResponse auth req resp err)
  Then e =>
    (logger_Printf
       "[ERR] core: failed to audit response (request: %#v, response: %#v): %v" ;;;
     ret (None, Some ErrInternalError))
  Else
  ret (resp, err).

(** ** [Core.HandleRequest] *)
Definition HandleRequest (req : Request) : M (option Response * option error) :=
  c <- getCore ;;
  if sealed c then ret (None, Some ErrSealed) else
  if standby c then ret (None, Some ErrStandby) else
  login <- call (fun h => router_LoginPath E h (req_Path req))
                (Router_LoginPath (req_Path req)) ;;
  if login then handleLoginRequest req else handleRequest req.

(** ** [Core.Seal] *)
Definition Seal (token : string) : M (option error) :=
  c <- getCore ;;
  if sealed c then ret None else
  r <- checkToken WriteOperation "sys/seal" token ;;
  match r with
  | Err err => ret (Some err)
  | Ok _ =>
  setCore (set_sealed true) ;;;
  c <- getCore ;;
  _ <-? (if negb (ha c) then
           IfErr preSeal Then err =>
             (logger_Printf "[ERR] core: pre-seal teardown failed: %v" ;;;
              ret (inl (Some (Errorf "internal error"))))
           Else ret (inr tt)
         else
           setCore (set_standbyStopCh ChanClosed) ;;;
           call_ Recv_standbyDoneCh ;;;
           ret (inr tt)) ;;
  IfErr call (barrier_Seal E) Barrier_Seal Then err => ret (Some err) Else
  logger_Printf "[INFO] core: vault is sealed" ;;;
  ret None
  end.

(** ** [Core.Leader] *)
Definition Leader : M (bool * string * option error) :=
  c <- getCore ;;
  if negb (ha c) then ret (false, "", Some ErrHANotEnabled) else
  if sealed c then ret (false, "", Some ErrSealed) else
  if negb (standby c) then ret (true, advertiseAddr c, None) else
  IfErr call (fun h => ha_LockWith E h coreLockPath "read")
             (HA_LockWith coreLockPath "read")
  Then err => ret (false, "", Some err) Else
  r <- call (lock_Value E) Lock_Value ;;
  let '(held, value, err) := r in
  match err with
  | Some e => ret (false, "", Some e)
  | None =>
  if negb held then ret (false, "", None) else
  let key := coreLeaderPrefix ++ value in
  r <- call (fun h => barrier_Get E h key) (Barrier_Get key) ;;
  let (entry, err) := r in
  match err with
  | Some e => ret (false, "", Some e)
  | None =>
  match entry with
  | None => ret (false, "", None)
  | Some entry => ret (false, string_of_list_byte (Value entry), None)
  end
  end
  end.

(** ** [Core.advertiseLeader], [Core.clearLeader] *)
Definition advertiseLeader (uuid : string) : M (option error) :=
  c <- getCore ;;
  let ent := mkEntry (coreLeaderPrefix ++ uuid) (list_byte_of_string (advertiseAddr c)) in
  call (fun h => barrier_Put E h ent) (Barrier_Put ent).

Definition clearLeader (uuid : string) : M (option error) :=
  let key := coreLeaderPrefix ++ uuid in
  call (fun h => barrier_Delete E h key) (Barrier_Delete key).

(** ** [Core.acquireLock]

    The Go loop retries for ever while [lock.Lock] fails and no stop is
    signalled; [fuel] bounds the number of attempts, and [None] means the
    bound was reached.  [Some true] is a non-nil [leaderCh], [Some false]
    the nil channel. *)
Fixpoint acquireLock (fuel : nat) : M (option bool) :=
  match fuel with
  | O => ret None
  | S fuel' =>
      r <- call (lock_Lock E) Lock_Lock ;;
      let (leaderCh, err) := r in
      match err with
      | None => ret (Some leaderCh)
      | Some _ =>
          logger_Printf "[ERR] core: failed to acquire lock: %v" ;;;
          w <- call (select_retry_stop E) Select_Retry_Stop ;;
          match w with
          | TimerFired => acquireLock fuel'
          | StopFired => ret (Some false)
          end
      end
  end.

(** ** [Core.runStandby]

    One pass through the body of the [for] loop ends in [continue]
    (also when the end of the body is reached), in [return], or without
    an answer when [acquireLock] used up its fuel. *)
Inductive LoopCtl : Type := Continue | Return | OutOfFuel.

Definition runStandby_body (fuel : nat) : M LoopCtl :=
  stop <- call (select_stop E) Select_Stop ;;
  if stop then ret Return else
  uuid <- call (generateUUID E) GenerateUUID ;;
  IfErr call (fun h => ha_LockWith E h coreLockPath uuid) (HA_LockWith coreLockPath uuid)
  Then err =>
    (logger_Printf "[ERR] core: failed to create lock: %v" ;;;
     ret Return)
  Else
  leaderCh <- acquireLock fuel ;;
  match leaderCh with
  | None => ret OutOfFuel
  | Some false => ret Return
  | Some true =>
  logger_Printf "[INFO] core: acquired lock, enabling active operation" ;;;
  IfErr advertiseLeader uuid Then err =>
    (logger_Printf "[ERR] core: leader advertisement setup failed: %v" ;;;
     call_ Lock_Unlock ;;;
     ret Continue)
  Else
  err <- postUnseal ;;
  (match err with
   | None => setCore (set_standby false)
   | Some _ => ret tt
   end) ;;;
  match err with
  | Some _ =>
      logger_Printf "[ERR] core: post-unseal setup failed: %v" ;;;
      call_ Lock_Unlock ;;;
      ret Continue
  | None =>
  w <- call (select_leader_stop E) Select_Leader_Stop ;;
  (match w with
   | LeaderLost =>
       logger_Printf "[WARN] core: leadership lost, stopping active operation"
   | StopSignalled =>
       logger_Printf "[WARN] core: stopping active operation"
   end) ;;;
  (IfErr clearLeader uuid Then err =>
     logger_Printf "[ERR] core: clearing leader advertisement failed: %v"
   Else ret tt) ;;;
  setCore (set_standby true) ;;;
  _ <- preSeal ;;
  call_ Lock_Unlock ;;;
  IfErr preSeal Then err =>
    (logger_Printf "[ERR] core: pre-seal teardown failed: %v" ;;;
     ret Continue)
  Else ret Continue
  end
  end.

(** [fuel] bounds both the passes through the loop and the lock attempts
    of each pass; the result tells whether the loop returned. *)
Fixpoint runStandby_loop (fuel : nat) : M bool :=
  match fuel with
  | O => ret false
  | S fuel' =>
      ctl <- runStandby_body (S fuel') ;;
      match ctl with
      | Continue => runStandby_loop fuel'
      | Return => ret true
      | OutOfFuel => ret false
      end
  end.

(** [defer close(doneCh)] happens when the loop returns. *)
Definition runStandby (fuel : nat) : M bool :=
  logger_Printf "[INFO] core: entering standby mode" ;;;
  returned <- runStandby_loop fuel ;;
  (if returned then setCore (set_standbyDoneCh ChanClosed) else ret tt) ;;;
  ret returned.

End CoreMethods.

(** ** A caller of [Unseal]

    An operator submits key shares one after the other; each answer of
    [Unseal] is kept.  [Unseal] keeps the slice it is handed
    ([c.unlockParts = append(c.unlockParts, key)], without a copy), so a
    part held by the core is the operator's buffer.  The operator of
    [submit] hands over every share in a buffer of its own and does not
    write to a buffer it has handed over: only then is a held part the
    value that was submitted.  An operator that reuses one buffer for its
    shares is not described by [submit]. *)
Fixpoint submit (E : Env) (keys : list bytes) (s : State)
    : list (bool * option error) * State :=
  match keys with
  | [] => ([], s)
  | key :: keys' =>
      let (r, s1) := Unseal E key s in
      let (rs, s2) := submit E keys' s1 in
      (r :: rs, s2)
  end.

(** The parts a sealed core holds once [key] has been offered to it below
    the threshold: a key it already holds changes nothing. *)
Definition accept (parts : list bytes) (key : bytes) : list bytes :=
  if existsb (fun existing => bytes_Equal existing key) parts
  then parts else (parts ++ [key])%list.

(** A key whose length passes the two tests of [Unseal] when the barrier
    announces the lengths [kmin] and [kmax]. *)
Definition admissible (E : Env) (kmin kmax : Z) (key : bytes) : Prop :=
  kmin <= len key <= wrap_int (kmax + shamir_ShareOverhead E).

(** The distinct keys among [parts] followed by [keys], in the order of
    their first occurrence. *)
Definition accepted (parts keys : list bytes) : list bytes :=
  fold_left accept keys parts.

(** ** Observations on a history *)

(** [preSeal] announces itself with its first log line. *)
Definition is_preSeal_entry (c : Call) : bool :=
  match c with
  | Log f => String.eqb f "[INFO] core: pre-seal teardown starting"
  | _ => false
  end.

(** The standby loop leaves the active role right after the [select] on
    [leaderCh] and [stopCh] has fired. *)
Definition is_transition (c : Call) : bool :=
  match c with
  | Select_Leader_Stop => true
  | _ => false
  end.

(** Number of times [preSeal] was entered. *)
Definition preSeal_runs (h : History) : nat := length (filter is_preSeal_entry h).

(** Number of active-to-standby transitions of the standby loop. *)
Definition transitions (h : History) : nat := length (filter is_transition h).

(** What a call adds to "runs of [preSeal] minus twice the transitions". *)
Definition weight (c : Call) : Z :=
  if is_preSeal_entry c then 1 else if is_transition c then -2 else 0.

Fixpoint balance (h : History) : Z :=
  match h with
  | [] => 0
  | c :: h' => weight c + balance h'
  end.

(** A computation [extends] the history: whatever it does, the calls made
    before it are still there, in order, followed by its own. *)
Definition extends {A : Type} (m : M A) : Prop :=
  forall s : State, exists rest : History, calls (snd (m s)) = (calls s ++ rest)%list.

(** A computation [shifts] the balance of the history by [k] whichever way
    it goes. *)
Definition shifts {A : Type} (m : M A) (k : Z) : Prop :=
  forall s : State, balance (calls (snd (m s))) = balance (calls s) + k.

Definition barrier_Seal_called (h : History) : bool :=
  existsb (fun c => match c with Barrier_Seal => true | _ => false end) h.

(** The auth blocks handed to [expiration.RegisterAuth], in order. *)
Definition registerAuth_calls (h : History) : list (string * Auth) :=
  flat_map (fun c => match c with
                     | Expiration_RegisterAuth source a => [(source, a)]
                     | _ => []
                     end) h.

(** ** A concrete deployment

    A small world used to run the model: a 3-of-5 seal configuration, a
    barrier that opens with one master key, a toy share scheme, a token
    store holding one root token, and a router in front of a secret
    backend, a password login and the token store. *)
Module Scenario.

(** [time.Duration] counts nanoseconds. *)
Definition day : Z := 86400 * 10 ^ 9.

Definition masterKey : bytes := repeat "m"%byte 32.
Definition share (b : byte) : bytes := repeat b 33.
Definition s1 : bytes := share x01.
Definition s2 : bytes := share x02.
Definition s3 : bytes := share x03.
Definition s4 : bytes := share x04.
Definition s5 : bytes := share x05.
Definition wrongKey : bytes := share xff.

Definition is_share (p : bytes) : bool :=
  existsb (bytes_Equal p) [s1; s2; s3; s4; s5].

(** Three genuine shares give the master key, anything else another key. *)
Definition combine (parts : list bytes) : bytes * option error :=
  if (length parts =? 3)%nat && forallb is_share parts
  then (masterKey, None)
  else (repeat x00 32, None).

Definition rootEntry : TokenEntry :=
  mkTokenEntry "root-token" "auth/token/root" ["root"] [] "root".

Definition rootACL : ACL := mkACL (fun _ => true) (fun _ _ => true).
Definition emptyACL : ACL := mkACL (fun _ => false) (fun _ _ => false).

(** The lease a token-creation request asks for: one hour or none. *)
Definition requested_lease (req : Request) : Z :=
  if existsb (fun kv => String.eqb (fst kv) "lease" && String.eqb (snd kv) "1h")
             (req_Data req)
  then 3600 * 10 ^ 9 else 0.

(** The token store creates child tokens of the root token. *)
Definition route (req : Request) : option Response * option error :=
  if String.eqb (req_Path req) "secret/zero" then
    (Some (mkResponse (Some (mkSecret 0 "")) None [("value", "1")]), None)
  else if String.eqb (req_Path req) "secret/long" then
    (Some (mkResponse (Some (mkSecret (300 * day) "")) None [("value", "2")]), None)
  else if String.eqb (req_Path req) "auth/userpass/login" then
    (Some (mkResponse None (Some (mkAuth "" ["default"] [] "alice" 0)) []), None)
  else if String.eqb (req_Path req) "auth/token/create" then
    (Some (mkResponse None
             (Some (mkAuth "child-token" ["root"] [] "token" (requested_lease req))) []),
     None)
  else
    (Some (mkResponse None None [("value", "3")]), None).

Definition seen_Select_Leader_Stop (h : History) : bool :=
  existsb (fun c => match c with Select_Leader_Stop => true | _ => false end) h.

(** Every set-up step succeeds except the policy store, which answers
    [policyStoreErr]. *)
Definition env (policyStoreErr : option error) : Env := {|
  defaultLeaseDuration := day;
  maxLeaseDuration := 30 * day;
  shamir_ShareOverhead := 1;
  credentialRoutePrefix := "auth/";
  ErrPermissionDenied_text := "permission denied";
  ErrInvalidRequest_text := "invalid request";
  json_Unmarshal := fun _ => (mkSealConfig 5 3, None);
  shamir_Combine := combine;
  barrier_KeyLength := fun _ => (32, 32);
  barrier_Unseal := fun _ key =>
    if bytes_Equal key masterKey then None else Some (ErrInvalidKey "wrong master key");
  barrier_Seal := fun _ => None;
  barrier_Get := fun _ key =>
    if String.eqb key "core/leader/uuid-A"
    then (Some (mkEntry key (list_byte_of_string "https://a:8200")), None)
    else (None, None);
  barrier_Put := fun _ _ => None;
  barrier_Delete := fun _ _ => None;
  physical_Get := fun _ key => (Some (mkEntry key []), None);
  loadMounts := fun _ => None;
  setupMounts := fun _ => None;
  startRollback := fun _ => None;
  setupPolicyStore := fun _ => policyStoreErr;
  loadCredentials := fun _ => None;
  setupCredentials := fun _ => None;
  setupExpiration := fun _ => None;
  loadAudits := fun _ => None;
  setupAudits := fun _ => None;
  teardownAudits := fun _ => None;
  stopExpiration := fun _ => None;
  teardownCredentials := fun _ => None;
  teardownPolicyStore := fun _ => None;
  stopRollback := fun _ => None;
  unloadMounts := fun _ => None;
  tokenStore_Lookup := fun _ id =>
    if String.eqb id "root-token" then (Some rootEntry, None) else (None, None);
  tokenStore_UseToken := fun _ _ => None;
  tokenStore_Create := fun _ _ => ("fresh-token", None);
  policy_ACL := fun _ names =>
    (if strListContains names "root" then rootACL else emptyACL, None);
  router_LoginPath := fun _ path => String.eqb path "auth/userpass/login";
  router_RootPath := fun _ path => String.prefix "sys/" path;
  router_MatchingMount := fun _ _ => "auth/userpass/";
  router_Route := fun _ req => route req;
  expiration_Register := fun _ req _ => (req_Path req ++ "/lease-1", None);
  expiration_RegisterAuth := fun _ _ _ => None;
  auditBroker_LogRequest := fun _ _ _ => None;
  auditBroker_LogResponse := fun _ _ _ _ _ => None;
  generateUUID := fun _ => "uuid-B";
  ha_LockWith := fun _ _ _ => None;
  lock_Lock := fun _ => (true, None);
  lock_Value := fun _ => (true, "uuid-A", None);
  select_stop := seen_Select_Leader_Stop;
  select_leader_stop := fun _ => LeaderLost;
  select_retry_stop := fun _ => TimerFired
|}.

Definition healthy : Env := env None.
Definition brokenPolicyStore : Env := env (Some (Errorf "policy store unavailable")).

(** A freshly constructed core ([NewCore]): sealed, standby, no HA. *)
Definition newCore : Core :=
  mkCore false "" false true true ChanNil ChanNil [] ChanNil.

(** The same core with an HA backend, advertising an address. *)
Definition newHACore : Core :=
  mkCore true "https://b:8200" false true true ChanNil ChanNil [] ChanNil.

Definition fresh : State := mkState newCore [].

(** An unsealed, active core without HA. *)
Definition active : State :=
  mkState (set_standby false (set_sealed false newCore)) [].

(** An unsealed HA core, first as standby, then as leader. *)
Definition haStandby : State := mkState (set_sealed false newHACore) [].
Definition haActive : State :=
  mkState (set_standby false (set_sealed false newHACore)) [].

Definition request (op : Operation) (path token : string) : Request :=
  mkRequest op path token "" [].

Definition createLeasedRootToken : Request :=
  mkRequest WriteOperation "auth/token/create" "root-token" "" [("lease", "1h")].

(** The sealed core after one, then two, of the three shares it needs. *)
Definition onePart : State := snd (Unseal healthy s1 fresh).
Definition twoParts : State := snd (Unseal healthy s2 onePart).

(** The state in which [Unseal] finds the core once it has read the key
    length and the seal configuration. *)
Definition configRead (s : State) : State :=
  snd (Core_SealConfig healthy (mkState (core s) (calls s ++ [Barrier_KeyLength])%list)).

Definition rootAuth : Auth := mkAuth "root-token" ["root"] [] "root" 0.

(** The state after the token check of a request. *)
Definition tokenChecked (req : Request) (s : State) : State :=
  snd (checkToken healthy (req_Operation req) (req_Path req) (req_ClientToken req) s).

End Scenario.


(** [barrier.Unseal] in a history. *)
Definition is_barrier_Unseal (c : Call) : bool :=
  match c with
  | Barrier_Unseal _ => true
  | _ => false
  end.

(** * Deployments in which something fails

    The deployment of [Scenario] with one thing going wrong. *)
Module Failures.

Import Scenario.

Inductive Fault : Type :=
| MixedShares        (* [shamir.Combine] refuses parts of different lengths *)
| ConfigMissing      (* no seal configuration is stored *)
| ExpirationDown     (* [setupExpiration] fails *)
| TeardownFails      (* [teardownAudits] fails *)
| LockFree           (* nobody holds the HA lock *)
| LeaderGone         (* the lock holder's advertisement is missing *)
| AuditDown          (* the audit broker refuses requests *)
| AuditResponseDown  (* the audit broker refuses responses *)
| TokenStoreDown.    (* the token store cannot create tokens *)

Definition sameLength (parts : list bytes) : bool :=
  match parts with
  | [] => true
  | p :: ps => forallb (fun q => (length q =? length p)%nat) ps
  end.

(** [shamir.Combine] as it checks its arguments: parts of different
    lengths are refused. *)
Definition strictCombine (parts : list bytes) : bytes * option error :=
  if sameLength parts then combine parts
  else ([], Some (Errorf "all parts must be the same length")).

Definition deployment (f : Fault) : Env := {|
  defaultLeaseDuration := defaultLeaseDuration healthy;
  maxLeaseDuration := maxLeaseDuration healthy;
  shamir_ShareOverhead := shamir_ShareOverhead healthy;
  credentialRoutePrefix := credentialRoutePrefix healthy;
  ErrPermissionDenied_text := ErrPermissionDenied_text healthy;
  ErrInvalidRequest_text := ErrInvalidRequest_text healthy;
  json_Unmarshal := json_Unmarshal healthy;
  shamir_Combine :=
    match f with
    | MixedShares => strictCombine
    | _ => shamir_Combine healthy
    end;
  barrier_KeyLength := barrier_KeyLength healthy;
  barrier_Unseal := barrier_Unseal healthy;
  barrier_Seal := barrier_Seal healthy;
  barrier_Get :=
    match f with
    | LeaderGone => fun _ _ => (None, None)
    | _ => barrier_Get healthy
    end;
  barrier_Put := barrier_Put healthy;
  barrier_Delete := barrier_Delete healthy;
  physical_Get :=
    match f with
    | ConfigMissing => fun _ _ => (None, None)
    | _ => physical_Get healthy
    end;
  loadMounts := loadMounts healthy;
  setupMounts := setupMounts healthy;
  startRollback := startRollback healthy;
  setupPolicyStore := setupPolicyStore healthy;
  loadCredentials := loadCredentials healthy;
  setupCredentials := setupCredentials healthy;
  setupExpiration :=
    match f with
    | ExpirationDown => fun _ => Some (Errorf "expiration manager unavailable")
    | _ => setupExpiration healthy
    end;
  loadAudits := loadAudits healthy;
  setupAudits := setupAudits healthy;
  teardownAudits :=
    match f with
    | TeardownFails => fun _ => Some (Errorf "audit backend busy")
    | _ => teardownAudits healthy
    end;
  stopExpiration := stopExpiration healthy;
  teardownCredentials := teardownCredentials healthy;
  teardownPolicyStore := teardownPolicyStore healthy;
  stopRollback := stopRollback healthy;
  unloadMounts := unloadMounts healthy;
  tokenStore_Lookup := tokenStore_Lookup healthy;
  tokenStore_UseToken := tokenStore_UseToken healthy;
  tokenStore_Create :=
    match f with
    | TokenStoreDown => fun _ _ => ("", Some (Errorf "token store unavailable"))
    | _ => tokenStore_Create healthy
    end;
  policy_ACL := policy_ACL healthy;
  router_LoginPath := router_LoginPath healthy;
  router_RootPath := router_RootPath healthy;
  router_MatchingMount := router_MatchingMount healthy;
  router_Route := router_Route healthy;
  expiration_Register := expiration_Register healthy;
  expiration_RegisterAuth := expiration_RegisterAuth healthy;
  auditBroker_LogRequest :=
    match f with
    | AuditDown => fun _ _ _ => Some (Errorf "audit log full")
    | _ => auditBroker_LogRequest healthy
    end;
  auditBroker_LogResponse :=
    match f with
    | AuditResponseDown => fun _ _ _ _ _ => Some (Errorf "audit log full")
    | _ => auditBroker_LogResponse healthy
    end;
  generateUUID := generateUUID healthy;
  ha_LockWith := ha_LockWith healthy;
  lock_Lock := lock_Lock healthy;
  lock_Value :=
    match f with
    | LockFree => fun _ => (false, "", None)
    | _ => lock_Value healthy
    end;
  select_stop := select_stop healthy;
  select_leader_stop := select_leader_stop healthy;
  select_retry_stop := select_retry_stop healthy
|}.

Definition mixedShares : Env := deployment MixedShares.

(** A key of 32 bytes, one less than the shares of the deployment. *)
Definition shortShare : bytes := repeat x09 32.

End Failures.

(** * Properties *)

Local Open Scope list_scope.

(** Run the monadic plumbing of a goal: the binds, returns and calls are
    unfolded and reduced; the methods of the core stay folded. *)
Ltac run :=
  cbv beta iota zeta delta
    [bind ret getCore setCore call call_ logger_Printf ifErr orReturn
     core calls fst snd].

(** Case analysis on every test the goal is stuck on, innermost first,
    re-running the plumbing after each. *)
Ltac cases :=
  repeat (run;
          match goal with
          | |- context [match ?x with _ => _ end] =>
              lazymatch x with
              | context [match _ with _ => _ end] => fail
              | _ => destruct x eqn:?
              end
          end);
  run.

Section Properties.

Variable E : Env.

(** C8.  [HandleRequest] fails with [ErrSealed] on a sealed core and with
    [ErrStandby] on an unsealed standby core, in both cases without calling
    any collaborator (so nothing is routed); otherwise it asks the router
    whether the path is a login path and runs [handleLoginRequest] if it is
    and [handleRequest] if it is not. *)
Theorem HandleRequest_gate (req : Request) (s : State) :
  (sealed (core s) = true ->
   HandleRequest E req s = ((None, Some ErrSealed), s)) /\
  (sealed (core s) = false -> standby (core s) = true ->
   HandleRequest E req s = ((None, Some ErrStandby), s)) /\
  (sealed (core s) = false -> standby (core s) = false ->
   let s' := mkState (core s) (calls s ++ [Router_LoginPath (req_Path req)]) in
   (router_LoginPath E (calls s) (req_Path req) = true ->
    HandleRequest E req s = handleLoginRequest E req s') /\
   (router_LoginPath E (calls s) (req_Path req) = false ->
    HandleRequest E req s = handleRequest E req s')).
Proof.
  destruct s as [c h].
  unfold HandleRequest; run.
  split; [| split].
  - intros Hsealed. rewrite Hsealed. reflexivity.
  - intros Hsealed Hstandby. rewrite Hsealed, Hstandby. reflexivity.
  - intros Hsealed Hstandby. rewrite Hsealed, Hstandby.
    split; intros Hlogin; rewrite Hlogin; reflexivity.
Qed.

(** C10.  [Seal] on an already sealed core returns [nil] at once, whatever
    the token: no collaborator is called (no token check, no tear-down, no
    barrier seal) and the state is the one it started from. *)
Theorem Seal_sealed_noop (token : string) (s : State) :
  sealed (core s) = true ->
  Seal E token s = (None, s).
Proof.
  destruct s as [c h]. unfold Seal; run.
  intros Hsealed. rewrite Hsealed. reflexivity.
Qed.

(** C9.  With an HA backend configured, [Leader] on an unsealed active node
    answers [(true, advertiseAddr)] without calling anyone; on an unsealed
    standby node it opens the lock at [coreLockPath], reads its value (the
    leader's uuid), fetches [coreLeaderPrefix ++ uuid] from the barrier and
    answers [(false, address stored there)]; without an HA backend it fails
    with [ErrHANotEnabled]. *)
Theorem Leader_spec (s : State) :
  (ha (core s) = true -> sealed (core s) = false -> standby (core s) = false ->
   Leader E s = ((true, advertiseAddr (core s), None), s)) /\
  (ha (core s) = true -> sealed (core s) = false -> standby (core s) = true ->
   forall (uuid : string) (entry : Entry),
   let h1 := calls s ++ [HA_LockWith coreLockPath "read"] in
   let h2 := h1 ++ [Lock_Value] in
   let key := (coreLeaderPrefix ++ uuid)%string in
   ha_LockWith E (calls s) coreLockPath "read" = None ->
   lock_Value E h1 = (true, uuid, None) ->
   barrier_Get E h2 key = (Some entry, None) ->
   Leader E s = ((false, string_of_list_byte (Value entry), None),
                 mkState (core s) (h2 ++ [Barrier_Get key]))) /\
  (ha (core s) = false ->
   Leader E s = ((false, "", Some ErrHANotEnabled), s)).
Proof.
  destruct s as [c h]. unfold Leader; run.
  split; [| split].
  - intros Hha Hsealed Hstandby. rewrite Hha, Hsealed, Hstandby. reflexivity.
  - intros Hha Hsealed Hstandby uuid entry Hlock Hvalue Hget.
    rewrite Hha, Hsealed, Hstandby. cbn [negb].
    rewrite Hlock, Hvalue. cbn [negb]. rewrite Hget. reflexivity.
  - intros Hha. rewrite Hha. reflexivity.
Qed.

(** C2, as the code has it.  On the authenticated path a request whose
    client token is empty fails with [ErrInvalidRequest], and the response
    body carries the message of the check, "missing client token".  The
    only call made is the router's [LoginPath] test by which
    [HandleRequest] chose the authenticated path: the token store and the
    audit broker are not called and the request is not routed. *)
Theorem HandleRequest_empty_token (req : Request) (s : State) :
  sealed (core s) = false ->
  standby (core s) = false ->
  router_LoginPath E (calls s) (req_Path req) = false ->
  req_ClientToken req = "" ->
  HandleRequest E req s =
    ((Some (ErrorResponse "missing client token"), Some ErrInvalidRequest),
     mkState (core s) (calls s ++ [Router_LoginPath (req_Path req)])).
Proof.
  destruct s as [c h]. unfold HandleRequest, handleRequest, checkToken; run.
  intros Hsealed Hstandby Hlogin Htoken.
  rewrite Hsealed, Hstandby, Hlogin, Htoken. reflexivity.
Qed.

(** Reading the seal configuration leaves the core's fields alone. *)
Lemma Core_SealConfig_core (s : State) :
  core (snd (Core_SealConfig E s)) = core s.
Proof.
  destruct s as [c h]. unfold Core_SealConfig; run.
  destruct (physical_Get E h coreSealConfigPath) as [[pe|] [e|]]; try reflexivity.
  destruct (json_Unmarshal E (Value pe)) as [conf [e|]]; try reflexivity.
  destruct (SealConfig_Validate conf); reflexivity.
Qed.

(** The two length tests of [Unseal] pass for a key within the bounds. *)
Lemma key_length_tests (key : bytes) (kmin kmax : Z) :
  kmin <= len key <= kmax ->
  (len key <? kmin) = false /\ (len key >? kmax) = false.
Proof.
  intros [Hlo Hhi]. split.
  - apply Z.ltb_ge. exact Hlo.
  - rewrite Z.gtb_ltb. apply Z.ltb_ge. exact Hhi.
Qed.

Lemma extends_ret {A : Type} (a : A) : extends (ret a).
Proof. intros s. exists []. cbn. now rewrite app_nil_r. Qed.

Lemma extends_getCore : extends getCore.
Proof. intros s. exists []. cbn. now rewrite app_nil_r. Qed.

Lemma extends_setCore (f : Core -> Core) : extends (setCore f).
Proof. intros s. exists []. cbn. now rewrite app_nil_r. Qed.

Lemma extends_call {A : Type} (answer : History -> A) (c : Call) :
  extends (call answer c).
Proof. intros s. exists [c]. reflexivity. Qed.

Lemma extends_bind {A B : Type} (m : M A) (k : A -> M B) :
  extends m -> (forall a, extends (k a)) -> extends (bind m k).
Proof.
  intros Hm Hk s. unfold bind.
  destruct (Hm s) as [r1 H1]. destruct (m s) as [a s1]. cbn [snd] in H1.
  destruct (Hk a s1) as [r2 H2].
  exists (r1 ++ r2). rewrite H2, H1. now rewrite app_assoc.
Qed.

(** Splits a computation along its binds and its case distinctions. *)
Ltac extends_tac :=
  unfold ifErr, orReturn, logger_Printf, call_;
  repeat first
    [ apply extends_ret
    | apply extends_getCore
    | apply extends_setCore
    | apply extends_call
    | apply extends_bind; [| intros ?]
    | match goal with
      | |- extends (match ?x with _ => _ end) => destruct x
      end ].

Lemma postUnseal_extends : extends (postUnseal E).
Proof. unfold postUnseal. extends_tac. Qed.

Lemma preSeal_extends : extends (preSeal E).
Proof. unfold preSeal. extends_tac. Qed.

(** Normalises a history built by successive calls and closes a goal
    [exists rest, history = prefix ++ rest]. *)
Ltac history_tail :=
  eexists; cbn [calls snd fst core]; rewrite <- ?app_assoc; cbn [app]; reflexivity.

(** The end of [Unseal], from [barrier.Unseal] on: whichever way it goes,
    the history continues from the call of [barrier.Unseal]. *)
Ltac unseal_tail :=
  match goal with
  | |- context [barrier_Unseal ?env ?h ?k] => destruct (barrier_Unseal env h k)
  end;
  [ history_tail | ];
  match goal with
  | |- context [negb (ha ?c)] => destruct (ha c); cbn [negb]
  end;
  [ history_tail | ];
  match goal with
  | |- context [postUnseal ?env ?st] =>
      let rest := fresh "rest" in
      let Hrest := fresh "Hrest" in
      destruct (postUnseal_extends st) as [rest Hrest];
      destruct (postUnseal env st) as [[?|] [? ?]];
      cbn [snd calls] in Hrest; subst
  end;
  history_tail.

(** C7, as the code has it.  On a sealed, initialised core and for a key of
    admissible length: a key equal to an accepted part leaves the core as
    it is and [Unseal] returns [false]; a new key that leaves the number of
    parts below the threshold is appended, [Unseal] returns [false] and the
    core stays sealed.  A new key that brings the number of parts to the
    threshold makes [Unseal] call [barrier.Unseal] on the first part when
    the threshold is 1, and on the master key that [shamir.Combine] makes
    of the parts otherwise; but when [shamir.Combine] fails, [Unseal]
    returns that failure, discards the parts and does not call
    [barrier.Unseal]. *)
Theorem Unseal_progress (key : bytes) (s s2 : State) (kmin kmax : Z)
    (config : SealConfig) :
  barrier_KeyLength E (calls s) = (kmin, kmax) ->
  kmin <= len key <= wrap_int (kmax + shamir_ShareOverhead E) ->
  Core_SealConfig E (mkState (core s) (calls s ++ [Barrier_KeyLength]))
    = ((Some config, None), s2) ->
  sealed (core s) = true ->
  let parts := unlockParts (core s) in
  let known := existsb (fun existing => bytes_Equal existing key) parts in
  (known = true ->
   fst (Unseal E key s) = (false, None) /\
   core (snd (Unseal E key s)) = core s) /\
  (known = false -> len (parts ++ [key]) < SecretThreshold config ->
   fst (Unseal E key s) = (false, None) /\
   core (snd (Unseal E key s)) = set_unlockParts (parts ++ [key]) (core s) /\
   sealed (core (snd (Unseal E key s))) = true) /\
  (known = false -> SecretThreshold config <= len (parts ++ [key]) ->
   (forall masterKey : bytes,
      (SecretThreshold config = 1 /\ masterKey = nth 0 (parts ++ [key]) []) \/
      (SecretThreshold config <> 1 /\
       shamir_Combine E (parts ++ [key]) = (masterKey, None)) ->
      exists rest : History,
        calls (snd (Unseal E key s)) = calls s2 ++ Barrier_Unseal masterKey :: rest) /\
   (forall (masterKey : bytes) (e : error),
      SecretThreshold config <> 1 ->
      shamir_Combine E (parts ++ [key]) = (masterKey, Some e) ->
      Unseal E key s
      = ((false, Some (Errorf ("failed to compute master key: " ++ Error E e))),
         mkState (set_unlockParts [] (core s)) (calls s2)))).
Proof.
  intros Hkl Hlen Hcfg Hsealed parts known.
  pose proof (Core_SealConfig_core (mkState (core s) (calls s ++ [Barrier_KeyLength])))
    as Hcore.
  rewrite Hcfg in Hcore.
  subst parts known.
  destruct s as [c h], s2 as [c2 h2].
  cbn [core calls snd] in *. subst c2.
  destruct (key_length_tests _ _ _ Hlen) as [Hlo Hhi].
  unfold Unseal; run.
  rewrite Hkl, Hlo, Hhi, Hcfg, Hsealed. cbn [negb].
  split; [| split].
  - intros Hknown. rewrite Hknown. split; reflexivity.
  - intros Hknown Hbelow. rewrite Hknown.
    apply Z.ltb_lt in Hbelow.
    cbn [unlockParts set_unlockParts]. rewrite Hbelow.
    repeat split. exact Hsealed.
  - intros Hknown Hreach. rewrite Hknown.
    apply Z.ltb_ge in Hreach.
    cbn [unlockParts set_unlockParts]. rewrite Hreach.
    split.
    + intros masterKey Hmk.
      destruct Hmk as [[Hone Hmk] | [Hmany Hmk]].
      * apply Z.eqb_eq in Hone. rewrite Hone. subst masterKey. run.
        unseal_tail.
      * apply Z.eqb_neq in Hmany. rewrite Hmany, Hmk. run.
        unseal_tail.
    + intros masterKey e Hmany Hmk.
      apply Z.eqb_neq in Hmany. rewrite Hmany, Hmk. run.
      reflexivity.
Qed.

Lemma len_app_one {A : Type} (l : list A) (x : A) : len (l ++ [x]) = len l + 1.
Proof. unfold len. rewrite length_app. cbn [length]. lia. Qed.

(** C3, as the code has it.  On a sealed core holding T-1 accepted parts, a
    further new key of admissible length whose master key the barrier
    refuses makes [Unseal] fail with the barrier's error and leaves the core
    sealed, but the accepted parts are discarded: [unlockParts] is emptied
    and [SecretProgress] is back to 0. *)
Theorem Unseal_refused_key_clears_parts (key : bytes) (s s2 : State)
    (kmin kmax : Z) (config : SealConfig) (masterKey : bytes) (e : error) :
  barrier_KeyLength E (calls s) = (kmin, kmax) ->
  kmin <= len key <= wrap_int (kmax + shamir_ShareOverhead E) ->
  Core_SealConfig E (mkState (core s) (calls s ++ [Barrier_KeyLength]))
    = ((Some config, None), s2) ->
  sealed (core s) = true ->
  let parts := unlockParts (core s) in
  existsb (fun existing => bytes_Equal existing key) parts = false ->
  len parts = SecretThreshold config - 1 ->
  (SecretThreshold config = 1 /\ masterKey = nth 0 (parts ++ [key]) []) \/
  (SecretThreshold config <> 1 /\
   shamir_Combine E (parts ++ [key]) = (masterKey, None)) ->
  barrier_Unseal E (calls s2) masterKey = Some e ->
  fst (Unseal E key s) = (false, Some e) /\
  core (snd (Unseal E key s)) = set_unlockParts [] (core s) /\
  sealed (core (snd (Unseal E key s))) = true /\
  fst (SecretProgress (snd (Unseal E key s))) = 0.
Proof.
  intros Hkl Hlen Hcfg Hsealed parts Hnew Hcount Hmk Hrefuse.
  pose proof (Core_SealConfig_core (mkState (core s) (calls s ++ [Barrier_KeyLength])))
    as Hcore.
  rewrite Hcfg in Hcore.
  subst parts.
  assert (Hreach : (len (unlockParts (core s) ++ [key]) <? SecretThreshold config) = false).
  { apply Z.ltb_ge. rewrite len_app_one. lia. }
  destruct s as [c h], s2 as [c2 h2].
  cbn [core calls snd] in *. subst c2.
  destruct (key_length_tests _ _ _ Hlen) as [Hlo Hhi].
  unfold SecretProgress, Unseal; run.
  rewrite Hkl, Hlo, Hhi, Hcfg, Hsealed. cbn [negb].
  rewrite Hnew. cbn [unlockParts set_unlockParts]. rewrite Hreach.
  destruct Hmk as [[Hone Hmk] | [Hmany Hmk]].
  - apply Z.eqb_eq in Hone. rewrite Hone. subst masterKey. run.
    rewrite Hrefuse. cbn. rewrite Hsealed. repeat split.
  - apply Z.eqb_neq in Hmany. rewrite Hmany, Hmk. run.
    rewrite Hrefuse. cbn. rewrite Hsealed. repeat split.
Qed.

(** Runs [handleRequest] up to the answer of the router, given that the
    token check and the request audit pass. *)
Ltac routed Hcheck Haudit Hroute :=
  unfold handleRequest; run; rewrite Hcheck; run; rewrite Haudit, Hroute.

(** The limit test of the request pipeline is a minimum. *)
Lemma limit_is_min (l m : Z) : (if l >? m then m else l) = Z.min l m.
Proof. destruct (Z.gtb_spec l m); lia. Qed.

(** The two lease adjustments made to a secret, as one assignment. *)
Lemma secret_lease_adjusted (d m : Z) (sec : Secret) :
  (if secret_Lease (if secret_Lease sec =? 0 then set_secret_Lease d sec else sec) >? m
   then set_secret_Lease m
          (if secret_Lease sec =? 0 then set_secret_Lease d sec else sec)
   else if secret_Lease sec =? 0 then set_secret_Lease d sec else sec)
  = set_secret_Lease (Z.min (if secret_Lease sec =? 0 then d else secret_Lease sec) m) sec.
Proof.
  destruct sec as [l id]. unfold set_secret_Lease.
  cbn [secret_Lease secret_LeaseID].
  rewrite <- limit_is_min.
  destruct (l =? 0); cbn [secret_Lease secret_LeaseID];
    destruct (_ >? m); reflexivity.
Qed.

Lemma set_resp_Secret_twice (x y : option Secret) (rp : Response) :
  set_resp_Secret x (set_resp_Secret y rp) = set_resp_Secret x rp.
Proof. reflexivity. Qed.

Lemma set_secret_LeaseID_Lease (id : string) (l : Z) (sec : Secret) :
  set_secret_LeaseID id (set_secret_Lease l sec) = mkSecret l id.
Proof. reflexivity. Qed.

(** C6.  On the authenticated path (token check and request audit passed),
    when the router returns a response with a secret: the lease becomes
    [defaultLeaseDuration] if it was zero and is then limited to
    [maxLeaseDuration]; [expiration.Register] is called with the request and
    the response carrying that lease; and the response that [handleRequest]
    returns carries that lease and the lease id [Register] answered.  The
    only other outcome is the internal error, with no response, when
    registering or auditing fails; it does not occur when registration and
    the response audit succeed and the response has no auth block. *)
Theorem handleRequest_secret_lease (req : Request) (s s1 : State) (auth : Auth)
    (rp : Response) (sec : Secret) (err : option error) :
  checkToken E (req_Operation req) (req_Path req) (req_ClientToken req) s
    = (Ok auth, s1) ->
  let req' := set_req_DisplayName (auth_DisplayName auth) req in
  let h1 := calls s1 ++ [Audit_LogRequest (Some auth) req'] in
  let h2 := h1 ++ [Router_Route req'] in
  auditBroker_LogRequest E (calls s1) (Some auth) req' = None ->
  router_Route E h1 req' = (Some rp, err) ->
  resp_Secret rp = Some sec ->
  let lease :=
    Z.min (if secret_Lease sec =? 0 then defaultLeaseDuration E else secret_Lease sec)
          (maxLeaseDuration E) in
  let rp' := set_resp_Secret (Some (set_secret_Lease lease sec)) rp in
  let leaseID := fst (expiration_Register E h2 req' rp') in
  let rp'' := set_resp_Secret (Some (mkSecret lease leaseID)) rp in
  let h3 := h2 ++ [Expiration_Register req' rp'] in
  (secret_Lease sec = 0 -> defaultLeaseDuration E <= maxLeaseDuration E ->
   lease = defaultLeaseDuration E) /\
  (secret_Lease sec <> 0 -> secret_Lease sec > maxLeaseDuration E ->
   lease = maxLeaseDuration E) /\
  lease <= maxLeaseDuration E /\
  (exists rest : History, calls (snd (handleRequest E req s)) = h3 ++ rest) /\
  (fst (handleRequest E req s) = (None, Some ErrInternalError) \/
   exists final : Response,
     fst (handleRequest E req s) = (Some final, err) /\
     resp_Secret final = Some (mkSecret lease leaseID)) /\
  (snd (expiration_Register E h2 req' rp') = None ->
   resp_Auth rp = None ->
   auditBroker_LogResponse E h3 (Some auth) req' (Some rp'') err = None ->
   fst (handleRequest E req s) = (Some rp'', err)).
Proof.
  intros Hcheck req' h1 h2 Haudit Hroute Hsecret lease rp' leaseID rp'' h3.
  assert (Hzero : secret_Lease sec = 0 -> defaultLeaseDuration E <= maxLeaseDuration E ->
                  lease = defaultLeaseDuration E).
  { intros Hz Hle. subst lease. rewrite Hz. cbn. lia. }
  assert (Hlong : secret_Lease sec <> 0 -> secret_Lease sec > maxLeaseDuration E ->
                  lease = maxLeaseDuration E).
  { intros Hnonzero Hgt. subst lease.
    destruct (Z.eqb_spec (secret_Lease sec) 0); lia. }
  assert (Hmax : lease <= maxLeaseDuration E) by (subst lease; lia).
  subst rp'' h3 leaseID rp' lease h2 h1 req'.
  destruct s as [c h], s1 as [c1 hh1]. cbn [calls] in *.
  split; [exact Hzero | split; [exact Hlong | split; [exact Hmax | split; [| split]]]].
  - routed Hcheck Haudit Hroute. rewrite Hsecret, secret_lease_adjusted.
    cases; history_tail.
  - routed Hcheck Haudit Hroute. rewrite Hsecret, secret_lease_adjusted.
    cases; try (left; reflexivity); right; eexists; split; reflexivity.
  - intros Hreg Hnoauth Hlog.
    routed Hcheck Haudit Hroute. rewrite Hsecret, secret_lease_adjusted.
    destruct (expiration_Register E _ _ _) as [lid e].
    cbn [fst snd] in *. subst e. run.
    cbn [resp_Auth set_resp_Secret]. rewrite Hnoauth. run.
    rewrite set_resp_Secret_twice, set_secret_LeaseID_Lease, Hlog. reflexivity.
Qed.

(** The two lease adjustments made to an auth block, as one assignment. *)
Lemma auth_lease_adjusted (d m : Z) (a : Auth) :
  let exempt := (auth_Lease a =? 0) && negb (strListContains (auth_Policies a) "root") in
  (if auth_Lease (if exempt then set_auth_Lease d a else a) >? m
   then set_auth_Lease m (if exempt then set_auth_Lease d a else a)
   else if exempt then set_auth_Lease d a else a)
  = set_auth_Lease (Z.min (if exempt then d else auth_Lease a) m) a.
Proof.
  intros exempt. destruct a as [tok pol meta name l]. unfold set_auth_Lease.
  rewrite <- limit_is_min.
  destruct exempt;
    cbn [auth_Lease auth_ClientToken auth_Policies auth_Metadata auth_DisplayName];
    destruct (_ >? m); reflexivity.
Qed.

(** C5, as the code has it.  On the authenticated path (token check and
    request audit passed), when the router returns a response with an auth
    block and no secret for a path under [auth/token/], the core calls
    [expiration.RegisterAuth] with that auth block whether or not its
    policies include [root].  What [root] changes is the lease handed over:
    a zero lease stays zero for a root policy holder and becomes
    [defaultLeaseDuration] for any other; in both cases the lease is limited
    to [maxLeaseDuration]. *)
Theorem handleRequest_registers_every_auth (req : Request) (s s1 : State)
    (auth : Auth) (rp : Response) (a : Auth) (err : option error) :
  checkToken E (req_Operation req) (req_Path req) (req_ClientToken req) s
    = (Ok auth, s1) ->
  let req' := set_req_DisplayName (auth_DisplayName auth) req in
  let h1 := calls s1 ++ [Audit_LogRequest (Some auth) req'] in
  let h2 := h1 ++ [Router_Route req'] in
  auditBroker_LogRequest E (calls s1) (Some auth) req' = None ->
  router_Route E h1 req' = (Some rp, err) ->
  resp_Secret rp = None ->
  resp_Auth rp = Some a ->
  strings_HasPrefix (req_Path req) "auth/token/" = true ->
  let root := strListContains (auth_Policies a) "root" in
  let lease :=
    Z.min (if (auth_Lease a =? 0) && negb root
           then defaultLeaseDuration E else auth_Lease a)
          (maxLeaseDuration E) in
  let a' := set_auth_Lease lease a in
  let h3 := h2 ++ [Expiration_RegisterAuth (req_Path req) a'] in
  (exists rest : History, calls (snd (handleRequest E req s)) = h3 ++ rest) /\
  (root = true -> auth_Lease a = 0 -> 0 <= maxLeaseDuration E -> lease = 0) /\
  (root = false -> auth_Lease a = 0 ->
   lease = Z.min (defaultLeaseDuration E) (maxLeaseDuration E)) /\
  (expiration_RegisterAuth E h2 (req_Path req) a' = None ->
   auditBroker_LogResponse E h3 (Some auth) req'
     (Some (set_resp_Auth (Some a') rp)) err = None ->
   fst (handleRequest E req s) = (Some (set_resp_Auth (Some a') rp), err)).
Proof.
  intros Hcheck req' h1 h2 Haudit Hroute Hnosecret Hauth Hprefix root lease a' h3.
  assert (Hroot : root = true -> auth_Lease a = 0 -> 0 <= maxLeaseDuration E ->
                  lease = 0).
  { intros Hr Hzero Hmax. subst lease. rewrite Hr, Hzero. cbn. lia. }
  assert (Hother : root = false -> auth_Lease a = 0 ->
                   lease = Z.min (defaultLeaseDuration E) (maxLeaseDuration E)).
  { intros Hr Hzero. subst lease. rewrite Hr, Hzero. reflexivity. }
  subst h3 a' lease root h2 h1 req'.
  destruct s as [c h], s1 as [c1 hh1]. cbn [calls] in *.
  split; [| split; [exact Hroot | split; [exact Hother |]]].
  - routed Hcheck Haudit Hroute. rewrite Hnosecret. run.
    rewrite Hauth. cbn [req_Path set_req_DisplayName]. rewrite Hprefix. cbn [negb].
    rewrite (auth_lease_adjusted (defaultLeaseDuration E) (maxLeaseDuration E) a).
    cases; history_tail.
  - intros Hreg Hlog.
    routed Hcheck Haudit Hroute. rewrite Hnosecret. run.
    rewrite Hauth. cbn [req_Path set_req_DisplayName]. rewrite Hprefix. cbn [negb].
    rewrite (auth_lease_adjusted (defaultLeaseDuration E) (maxLeaseDuration E) a).
    cbn [req_Path set_req_DisplayName] in *.
    rewrite Hreg. run. rewrite Hlog. reflexivity.
Qed.

(** ** Counting runs of [preSeal] in the standby loop *)

Lemma balance_app (h r : History) : balance (h ++ r) = balance h + balance r.
Proof. induction h as [| c h IH]; cbn [app balance]; [reflexivity | lia]. Qed.

Lemma balance_counts (h : History) :
  balance h = Z.of_nat (preSeal_runs h) - 2 * Z.of_nat (transitions h).
Proof.
  unfold preSeal_runs, transitions.
  induction h as [| c h IH]; [reflexivity |].
  cbn [balance filter]. rewrite IH. unfold weight.
  destruct c; cbn [is_preSeal_entry is_transition length]; try lia.
  destruct (String.eqb _ _); cbn [length]; lia.
Qed.

Lemma shifts_ret {A : Type} (a : A) (k : Z) : k = 0 -> shifts (ret a) k.
Proof. intros -> s. cbn. lia. Qed.

Lemma shifts_getCore (k : Z) : k = 0 -> shifts getCore k.
Proof. intros -> s. cbn. lia. Qed.

Lemma shifts_setCore (f : Core -> Core) (k : Z) : k = 0 -> shifts (setCore f) k.
Proof. intros -> s. cbn. lia. Qed.

Lemma shifts_call {A : Type} (answer : History -> A) (c : Call) (k : Z) :
  k = weight c -> shifts (call answer c) k.
Proof. intros -> s. cbn [call snd calls]. rewrite balance_app. cbn [balance]. lia. Qed.

Lemma shifts_bind {A B : Type} (m : M A) (f : A -> M B) (a t : Z) :
  shifts m a -> (forall x, shifts (f x) (t - a)) -> shifts (bind m f) t.
Proof.
  intros Hm Hf s. unfold bind.
  specialize (Hm s). destruct (m s) as [x s1]. cbn [snd] in Hm.
  rewrite (Hf x s1), Hm. lia.
Qed.

(** What the first computation of a bind adds to the balance. *)
Ltac first_weight m :=
  lazymatch m with
  | call _ ?c => constr:(weight c)
  | preSeal _ => constr:(1)
  | _ => constr:(0)
  end.

(** Follows a computation along its binds and case distinctions, keeping
    the account of the balance. *)
Ltac shifts_tac known :=
  unfold ifErr, orReturn, logger_Printf, call_;
  repeat lazymatch goal with
    | |- shifts (bind ?m ?f) ?t =>
        let a := first_weight m in
        apply (shifts_bind m f a t); [| intros ?]
    | |- shifts (match ?x with _ => _ end) _ => destruct x
    | |- shifts (ret _) _ => apply shifts_ret; reflexivity
    | |- shifts getCore _ => apply shifts_getCore; reflexivity
    | |- shifts (setCore _) _ => apply shifts_setCore; reflexivity
    | |- shifts (call _ _) _ => apply shifts_call; reflexivity
    | |- shifts _ _ => solve [known]
    end.

Lemma postUnseal_shifts : shifts (postUnseal E) 0.
Proof. unfold postUnseal. shifts_tac fail. Qed.

Lemma preSeal_shifts : shifts (preSeal E) 1.
Proof. unfold preSeal. shifts_tac fail. Qed.

Lemma acquireLock_shifts (fuel : nat) : shifts (acquireLock E fuel) 0.
Proof.
  induction fuel as [| fuel IH]; cbn [acquireLock].
  - apply shifts_ret. reflexivity.
  - shifts_tac ltac:(exact IH).
Qed.

Lemma runStandby_body_shifts (fuel : nat) : shifts (runStandby_body E fuel) 0.
Proof.
  unfold runStandby_body, advertiseLeader, clearLeader.
  shifts_tac ltac:(first [ exact (acquireLock_shifts fuel)
                         | exact postUnseal_shifts
                         | exact preSeal_shifts ]).
Qed.

Lemma runStandby_loop_shifts (fuel : nat) : shifts (runStandby_loop E fuel) 0.
Proof.
  induction fuel as [| fuel IH]; cbn [runStandby_loop].
  - apply shifts_ret. reflexivity.
  - shifts_tac ltac:(first [ exact (runStandby_body_shifts (S fuel)) | exact IH ]).
Qed.

(** C4 on the code, for every deployment: over any run of the standby loop
    the number of times [preSeal] is entered is twice the number of
    active-to-standby transitions, not equal to it. *)
Theorem runStandby_preSeal_count (fuel : nat) (s : State) :
  (preSeal_runs (calls (snd (runStandby E fuel s))) + 2 * transitions (calls s)
   = preSeal_runs (calls s) + 2 * transitions (calls (snd (runStandby E fuel s))))%nat.
Proof.
  assert (H : shifts (runStandby E fuel) 0).
  { unfold runStandby. shifts_tac ltac:(exact (runStandby_loop_shifts fuel)). }
  specialize (H s). rewrite !balance_counts in H. lia.
Qed.

(** C1 on the code, for every deployment: when the mounts and the rollback
    manager came up and the policy store, the loading of the credential
    table or the set-up of the credential backends fails, [postUnseal] stops
    there and returns [nil]. *)
Theorem postUnseal_drops_setup_errors (s : State) (e : error) :
  let h0 := calls s ++ Log "[INFO] core: post-unseal setup starting"
              :: (if physical_is_cache (core s) then [Cache_Purge] else []) in
  let h3 := h0 ++ [LoadMounts; SetupMounts; StartRollback] in
  loadMounts E h0 = None ->
  setupMounts E (h0 ++ [LoadMounts]) = None ->
  startRollback E (h0 ++ [LoadMounts; SetupMounts]) = None ->
  (setupPolicyStore E h3 = Some e ->
   postUnseal E s = (None, mkState (core s) (h3 ++ [SetupPolicyStore]))) /\
  (setupPolicyStore E h3 = None ->
   loadCredentials E (h3 ++ [SetupPolicyStore]) = Some e ->
   postUnseal E s
   = (None, mkState (core s) (h3 ++ [SetupPolicyStore; LoadCredentials]))) /\
  (setupPolicyStore E h3 = None ->
   loadCredentials E (h3 ++ [SetupPolicyStore]) = None ->
   setupCredentials E (h3 ++ [SetupPolicyStore; LoadCredentials]) = Some e ->
   postUnseal E s
   = (None, mkState (core s)
              (h3 ++ [SetupPolicyStore; LoadCredentials; SetupCredentials]))).
Proof.
  intros h0 h3 Hload Hsetup Hrollback.
  assert (Hstart :
    forall k : State -> option error * State,
    (bind (logger_Printf "[INFO] core: post-unseal setup starting")
          (fun _ => bind getCore (fun c =>
             bind (if physical_is_cache c then call_ Cache_Purge else ret tt)
                  (fun _ => k)))) s
    = k (mkState (core s) h0)).
  { intros k. subst h0. destruct s as [c h]. run.
    destruct (physical_is_cache c); run; rewrite <- ?app_assoc; reflexivity. }
  unfold postUnseal. rewrite Hstart. run.
  rewrite Hload.
  replace ((h0 ++ [LoadMounts]) ++ [SetupMounts]) with (h0 ++ [LoadMounts; SetupMounts])
    by (rewrite <- app_assoc; reflexivity).
  rewrite Hsetup.
  replace ((h0 ++ [LoadMounts; SetupMounts]) ++ [StartRollback]) with h3
    by (subst h3; rewrite <- app_assoc; reflexivity).
  rewrite Hrollback.
  split; [| split].
  - intros Hpolicy. rewrite Hpolicy. reflexivity.
  - intros Hpolicy Hcred. rewrite Hpolicy, Hcred.
    rewrite <- app_assoc. reflexivity.
  - intros Hpolicy Hcred Hsetupcred. rewrite Hpolicy, Hcred.
    replace ((h3 ++ [SetupPolicyStore]) ++ [LoadCredentials])
      with (h3 ++ [SetupPolicyStore; LoadCredentials])
      by (rewrite <- app_assoc; reflexivity).
    rewrite Hsetupcred. rewrite <- app_assoc. reflexivity.
Qed.

(** ** Submitting shares below the threshold *)

Lemma accept_len (parts : list bytes) (key : bytes) :
  len parts <= len (accept parts key).
Proof.
  unfold accept. destruct (existsb _ parts); [lia |].
  rewrite len_app_one. lia.
Qed.

Lemma accepted_len (keys parts : list bytes) :
  len parts <= len (accepted parts keys).
Proof.
  revert parts. induction keys as [| key keys IH]; intros parts; cbn [accepted fold_left].
  - lia.
  - specialize (IH (accept parts key)). unfold accepted in IH.
    pose proof (accept_len parts key). lia.
Qed.

Lemma set_unlockParts_same (c : Core) : set_unlockParts (unlockParts c) c = c.
Proof. destruct c; reflexivity. Qed.

Lemma set_unlockParts_twice (p q : list bytes) (c : Core) :
  set_unlockParts p (set_unlockParts q c) = set_unlockParts p c.
Proof. reflexivity. Qed.

Section StableDeployment.

(** A deployment whose barrier always announces the same key lengths and
    whose physical store always hands out the same, valid seal
    configuration. *)
Variables (kmin kmax : Z) (pe : Entry) (config : SealConfig).
Hypothesis KeyLength_stable : forall h, barrier_KeyLength E h = (kmin, kmax).
Hypothesis SealConfig_stored :
  forall h, physical_Get E h coreSealConfigPath = (Some pe, None).
Hypothesis SealConfig_decodes : json_Unmarshal E (Value pe) = (config, None).
Hypothesis SealConfig_valid : SealConfig_Validate config = None.

Lemma Core_SealConfig_stable (s : State) :
  Core_SealConfig E s
  = ((Some config, None), mkState (core s) (calls s ++ [Physical_Get coreSealConfigPath])).
Proof.
  destruct s as [c h]. unfold Core_SealConfig; run.
  rewrite SealConfig_stored, SealConfig_decodes, SealConfig_valid. reflexivity.
Qed.

(** One share that leaves the core below the threshold. *)
Lemma Unseal_accepts (key : bytes) (s : State) :
  admissible E kmin kmax key ->
  sealed (core s) = true ->
  len (accept (unlockParts (core s)) key) < SecretThreshold config ->
  fst (Unseal E key s) = (false, None) /\
  core (snd (Unseal E key s))
  = set_unlockParts (accept (unlockParts (core s)) key) (core s).
Proof.
  intros Hlen Hsealed Hbelow.
  destruct (key_length_tests _ _ _ Hlen) as [Hlo Hhi].
  destruct s as [c h]. cbn [core] in *.
  unfold Unseal; run.
  rewrite KeyLength_stable, Hlo, Hhi, Core_SealConfig_stable. run.
  rewrite Hsealed. cbn [negb].
  unfold accept in *.
  destruct (existsb _ (unlockParts c)).
  - rewrite set_unlockParts_same. split; reflexivity.
  - apply Z.ltb_lt in Hbelow.
    cbn [unlockParts set_unlockParts]. rewrite Hbelow. split; reflexivity.
Qed.

(** X1, Unseal monotonicity, for an operator that leaves the buffers it
    has handed over untouched (see [submit]).  However many shares such an
    operator submits to a sealed core, and in whatever order and with
    whatever repetitions, as long as the distinct admissible keys among
    them (with the parts already held) number fewer than the threshold,
    every [Unseal] answers [false] without an error, the core stays
    sealed, and it holds exactly those distinct keys, so that
    [SecretProgress] counts them. *)
Theorem submit_below_threshold (keys : list bytes) (s : State) :
  Forall (admissible E kmin kmax) keys ->
  sealed (core s) = true ->
  len (accepted (unlockParts (core s)) keys) < SecretThreshold config ->
  Forall (fun r => r = (false, None)) (fst (submit E keys s)) /\
  core (snd (submit E keys s))
  = set_unlockParts (accepted (unlockParts (core s)) keys) (core s) /\
  sealed (core (snd (submit E keys s))) = true /\
  fst (SecretProgress (snd (submit E keys s)))
  = len (accepted (unlockParts (core s)) keys).
Proof.
  revert s. induction keys as [| key keys IH]; intros s Hadm Hsealed Hbelow.
  - cbn [submit accepted fold_left fst snd]. rewrite set_unlockParts_same.
    repeat split; [constructor | exact Hsealed].
  - inversion Hadm as [| ? ? Hkey Hkeys]; subst.
    cbn [accepted fold_left] in Hbelow |- *.
    fold (accepted (accept (unlockParts (core s)) key) keys) in Hbelow |- *.
    assert (Hone : len (accept (unlockParts (core s)) key) < SecretThreshold config).
    { pose proof (accepted_len keys (accept (unlockParts (core s)) key)). lia. }
    destruct (Unseal_accepts key s Hkey Hsealed Hone) as [Hr Hcore].
    cbn [submit]. destruct (Unseal E key s) as [r s1]. cbn [fst snd] in Hr, Hcore.
    assert (Hparts : unlockParts (core s1) = accept (unlockParts (core s)) key)
      by (rewrite Hcore; reflexivity).
    assert (Hsealed1 : sealed (core s1) = true)
      by (rewrite Hcore; exact Hsealed).
    specialize (IH s1 Hkeys Hsealed1). rewrite Hparts in IH.
    destruct (IH Hbelow) as [Hrs [Hcore' [Hsealed' Hprogress]]].
    destruct (submit E keys s1) as [rs s2]. cbn [fst snd] in *.
    repeat split.
    + constructor; assumption.
    + rewrite Hcore', Hcore. apply set_unlockParts_twice.
    + exact Hsealed'.
    + exact Hprogress.
Qed.

End StableDeployment.

End Properties.

(** * The properties on the concrete deployment *)

Import Scenario.
Import Failures.

(** Discharges a closed arithmetic side condition by evaluation. *)
Ltac by_evaluation := vm_compute; repeat split; discriminate.

(** C8 on the concrete deployment: a sealed core, an unsealed standby core,
    and an active core with a login and with an ordinary request. *)
Lemma HandleRequest_gate_witness :
  HandleRequest healthy (request ReadOperation "secret/foo" "root-token") fresh
    = ((None, Some ErrSealed), fresh) /\
  HandleRequest healthy (request ReadOperation "secret/foo" "root-token") haStandby
    = ((None, Some ErrStandby), haStandby) /\
  HandleRequest healthy (request WriteOperation "auth/userpass/login" "") active
    = handleLoginRequest healthy (request WriteOperation "auth/userpass/login" "")
        (mkState (core active) [Router_LoginPath "auth/userpass/login"]) /\
  HandleRequest healthy (request ReadOperation "secret/foo" "root-token") active
    = handleRequest healthy (request ReadOperation "secret/foo" "root-token")
        (mkState (core active) [Router_LoginPath "secret/foo"]).
Proof.
  split; [| split; [| split]].
  - apply (HandleRequest_gate healthy). reflexivity.
  - apply (HandleRequest_gate healthy); reflexivity.
  - apply (HandleRequest_gate healthy
             (request WriteOperation "auth/userpass/login" "") active); reflexivity.
  - apply (HandleRequest_gate healthy
             (request ReadOperation "secret/foo" "root-token") active); reflexivity.
Defined.

(** C10 on the concrete deployment: the empty token and a token nobody
    issued, on sealed cores. *)
Lemma Seal_sealed_noop_witness :
  Seal healthy "" fresh = (None, fresh) /\
  Seal healthy "not-a-token" twoParts = (None, twoParts).
Proof.
  split.
  - apply (Seal_sealed_noop healthy "" fresh). reflexivity.
  - apply (Seal_sealed_noop healthy "not-a-token" twoParts). reflexivity.
Defined.

(** C9 on the concrete deployment: the leader, a standby node that finds the
    leader's address, and a core without HA. *)
Lemma Leader_spec_witness :
  Leader healthy haActive = ((true, "https://b:8200", None), haActive) /\
  fst (Leader healthy haStandby) = (false, "https://a:8200", None) /\
  Leader healthy active = ((false, "", Some ErrHANotEnabled), active).
Proof.
  split; [| split].
  - apply (Leader_spec healthy haActive); reflexivity.
  - destruct (Leader_spec healthy haStandby) as [_ [Hstandby _]].
    rewrite (Hstandby eq_refl eq_refl eq_refl "uuid-A"
               (mkEntry "core/leader/uuid-A" (list_byte_of_string "https://a:8200"))
               eq_refl eq_refl eq_refl).
    reflexivity.
  - apply (Leader_spec healthy active). reflexivity.
Defined.

(** C2 fails as stated: an empty client token on the authenticated path is
    answered with [ErrInvalidRequest], not with [ErrPermissionDenied]. *)
Lemma HandleRequest_empty_token_counterexample :
  fst (HandleRequest healthy (request ReadOperation "secret/foo" "") active)
    = (Some (ErrorResponse "missing client token"), Some ErrInvalidRequest) /\
  snd (fst (HandleRequest healthy (request ReadOperation "secret/foo" "") active))
    <> Some ErrPermissionDenied.
Proof. split; [reflexivity | discriminate]. Qed.

(** The amended C2 on the concrete deployment. *)
Lemma HandleRequest_empty_token_witness :
  HandleRequest healthy (request ReadOperation "secret/foo" "") active
    = ((Some (ErrorResponse "missing client token"), Some ErrInvalidRequest),
       mkState (core active) [Router_LoginPath "secret/foo"]).
Proof.
  apply (HandleRequest_empty_token healthy
           (request ReadOperation "secret/foo" "") active); reflexivity.
Defined.

(** C3 fails as stated: with two of three parts accepted, a wrong third key
    is refused with the barrier's error, and the two accepted parts are
    gone afterwards. *)
Lemma Unseal_wrong_key_counterexample :
  unlockParts (core twoParts) = [s1; s2] /\
  fst (SecretProgress twoParts) = 2 /\
  fst (Unseal healthy wrongKey twoParts)
    = (false, Some (ErrInvalidKey "wrong master key")) /\
  unlockParts (core (snd (Unseal healthy wrongKey twoParts))) = [] /\
  fst (SecretProgress (snd (Unseal healthy wrongKey twoParts))) = 0 /\
  unlockParts (core (snd (Unseal healthy wrongKey twoParts)))
    <> unlockParts (core twoParts).
Proof. vm_compute. repeat split; discriminate. Qed.

(** The amended C3 on the concrete deployment: two parts accepted, the
    third key is wrong. *)
Lemma Unseal_refused_key_clears_parts_witness :
  fst (Unseal healthy wrongKey twoParts)
    = (false, Some (ErrInvalidKey "wrong master key")) /\
  core (snd (Unseal healthy wrongKey twoParts)) = set_unlockParts [] (core twoParts) /\
  sealed (core (snd (Unseal healthy wrongKey twoParts))) = true /\
  fst (SecretProgress (snd (Unseal healthy wrongKey twoParts))) = 0.
Proof.
  apply (Unseal_refused_key_clears_parts healthy wrongKey twoParts
           (configRead twoParts) 32 32 (mkSealConfig 5 3) (repeat x00 32)).
  - reflexivity.
  - by_evaluation.
  - reflexivity.
  - reflexivity.
  - reflexivity.
  - reflexivity.
  - right. split; [discriminate | reflexivity].
  - reflexivity.
Defined.

(** C5 fails as stated: a token-store response whose auth block carries the
    [root] policy is handed to [expiration.RegisterAuth] all the same, with
    its lease of one hour when it has one and with a zero lease otherwise. *)
Lemma root_auth_registered_counterexample :
  strListContains ["root"] "root" = true /\
  registerAuth_calls
    (calls (snd (HandleRequest healthy createLeasedRootToken active)))
    = [("auth/token/create",
        mkAuth "child-token" ["root"] [] "token" (3600 * 10 ^ 9))] /\
  registerAuth_calls
    (calls (snd (HandleRequest healthy
                   (request WriteOperation "auth/token/create" "root-token") active)))
    = [("auth/token/create", mkAuth "child-token" ["root"] [] "token" 0)].
Proof. repeat split. Qed.

(** The amended C5 on the concrete deployment: the root token creates a
    child token with the root policy. *)
Lemma handleRequest_registers_every_auth_witness :
  (exists rest : History,
     calls (snd (handleRequest healthy
                   (request WriteOperation "auth/token/create" "root-token") active))
     = (calls (tokenChecked (request WriteOperation "auth/token/create" "root-token") active)
        ++ [Audit_LogRequest (Some rootAuth)
              (mkRequest WriteOperation "auth/token/create" "root-token" "root" [])]
        ++ [Router_Route
              (mkRequest WriteOperation "auth/token/create" "root-token" "root" [])]
        ++ [Expiration_RegisterAuth "auth/token/create"
              (mkAuth "child-token" ["root"] [] "token" 0)])
       ++ rest) /\
  fst (handleRequest healthy
         (request WriteOperation "auth/token/create" "root-token") active)
    = (Some (mkResponse None (Some (mkAuth "child-token" ["root"] [] "token" 0)) []),
       None).
Proof.
  pose proof (handleRequest_registers_every_auth healthy
                (request WriteOperation "auth/token/create" "root-token")
                active
                (tokenChecked (request WriteOperation "auth/token/create" "root-token") active)
                rootAuth
                (mkResponse None (Some (mkAuth "child-token" ["root"] [] "token" 0)) [])
                (mkAuth "child-token" ["root"] [] "token" 0)
                None
                eq_refl eq_refl eq_refl eq_refl eq_refl eq_refl) as H.
  cbv zeta in H. destruct H as [Hcalls [_ [_ Hresult]]].
  split.
  - destruct Hcalls as [rest Hrest]. exists rest. rewrite Hrest. reflexivity.
  - exact (Hresult eq_refl eq_refl).
Defined.

(** C6 on the concrete deployment: a secret without a lease gets the
    default of one day, a secret with a lease of 300 days is cut to the
    maximum of 30 days, and each comes back with its lease id. *)
Lemma handleRequest_secret_lease_witness :
  fst (handleRequest healthy (request ReadOperation "secret/zero" "root-token") active)
    = (Some (mkResponse (Some (mkSecret day "secret/zero/lease-1")) None [("value", "1")]),
       None) /\
  fst (handleRequest healthy (request ReadOperation "secret/long" "root-token") active)
    = (Some (mkResponse (Some (mkSecret (30 * day) "secret/long/lease-1")) None
               [("value", "2")]),
       None).
Proof.
  split.
  - pose proof (handleRequest_secret_lease healthy
                  (request ReadOperation "secret/zero" "root-token") active
                  (tokenChecked (request ReadOperation "secret/zero" "root-token") active)
                  rootAuth
                  (mkResponse (Some (mkSecret 0 "")) None [("value", "1")])
                  (mkSecret 0 "") None
                  eq_refl eq_refl eq_refl eq_refl) as H.
    cbv zeta in H. destruct H as [_ [_ [_ [_ [_ Hresult]]]]].
    exact (Hresult eq_refl eq_refl eq_refl).
  - pose proof (handleRequest_secret_lease healthy
                  (request ReadOperation "secret/long" "root-token") active
                  (tokenChecked (request ReadOperation "secret/long" "root-token") active)
                  rootAuth
                  (mkResponse (Some (mkSecret (300 * day) "")) None [("value", "2")])
                  (mkSecret (300 * day) "") None
                  eq_refl eq_refl eq_refl eq_refl) as H.
    cbv zeta in H. destruct H as [_ [_ [_ [_ [_ Hresult]]]]].
    exact (Hresult eq_refl eq_refl eq_refl).
Defined.

(** C7 fails as stated: with two of three parts accepted, a third new key
    of admissible length brings the count to the threshold, but its length
    differs from that of the parts held, [shamir.Combine] refuses the
    parts, and [Unseal] returns without calling [barrier.Unseal]; the two
    accepted parts are gone. *)
Lemma Unseal_combine_failure_counterexample :
  sealed (core twoParts) = true /\
  fst (Core_SealConfig mixedShares twoParts) = (Some (mkSealConfig 5 3), None) /\
  unlockParts (core twoParts) = [s1; s2] /\
  existsb (fun existing => bytes_Equal existing shortShare) (unlockParts (core twoParts))
    = false /\
  32 <= len shortShare <= wrap_int (32 + shamir_ShareOverhead mixedShares) /\
  len (unlockParts (core twoParts) ++ [shortShare]) = 3 /\
  fst (Unseal mixedShares shortShare twoParts)
    = (false, Some (Errorf
         "failed to compute master key: all parts must be the same length")) /\
  existsb is_barrier_Unseal (calls (snd (Unseal mixedShares shortShare twoParts)))
    = false /\
  unlockParts (core (snd (Unseal mixedShares shortShare twoParts))) = [].
Proof. vm_compute. repeat split; discriminate. Qed.

(** The amended C7 on the concrete deployment: the share already given, a
    second share, the third share that reaches the threshold, and a third
    key that [shamir.Combine] refuses. *)
Lemma Unseal_progress_witness :
  (fst (Unseal healthy s1 onePart) = (false, None) /\
   core (snd (Unseal healthy s1 onePart)) = core onePart) /\
  (fst (Unseal healthy s2 onePart) = (false, None) /\
   core (snd (Unseal healthy s2 onePart)) = set_unlockParts [s1; s2] (core onePart) /\
   sealed (core (snd (Unseal healthy s2 onePart))) = true) /\
  (exists rest : History,
     calls (snd (Unseal healthy s4 twoParts))
     = calls (configRead twoParts) ++ Barrier_Unseal masterKey :: rest) /\
  Unseal mixedShares shortShare twoParts
  = ((false, Some (Errorf
        "failed to compute master key: all parts must be the same length")),
     mkState (set_unlockParts [] (core twoParts)) (calls (configRead twoParts))).
Proof.
  assert (Hlen : 32 <= 33 <= wrap_int (32 + shamir_ShareOverhead healthy))
    by by_evaluation.
  split; [| split; [| split]].
  - destruct (Unseal_progress healthy s1 onePart (configRead onePart) 32 32
                (mkSealConfig 5 3) eq_refl Hlen eq_refl eq_refl) as [Hdup _].
    exact (Hdup eq_refl).
  - destruct (Unseal_progress healthy s2 onePart (configRead onePart) 32 32
                (mkSealConfig 5 3) eq_refl Hlen eq_refl eq_refl) as [_ [Hbelow _]].
    apply Hbelow; [reflexivity | by_evaluation].
  - destruct (Unseal_progress healthy s4 twoParts (configRead twoParts) 32 32
                (mkSealConfig 5 3) eq_refl Hlen eq_refl eq_refl) as [_ [_ Hreach]].
    assert (Hthree : SecretThreshold (mkSealConfig 5 3)
                     <= len (unlockParts (core twoParts) ++ [s4])) by by_evaluation.
    destruct (Hreach eq_refl Hthree) as [Hcombined _].
    apply Hcombined. right. split; [discriminate | reflexivity].
  - assert (Hshort : 32 <= len shortShare
                     <= wrap_int (32 + shamir_ShareOverhead mixedShares))
      by by_evaluation.
    destruct (Unseal_progress mixedShares shortShare twoParts (configRead twoParts)
                32 32 (mkSealConfig 5 3) eq_refl Hshort eq_refl eq_refl)
      as [_ [_ Hreach]].
    assert (Hthree : SecretThreshold (mkSealConfig 5 3)
                     <= len (unlockParts (core twoParts) ++ [shortShare]))
      by by_evaluation.
    destruct (Hreach eq_refl Hthree) as [_ Hrefused].
    apply (Hrefused [] (Errorf "all parts must be the same length"));
      [discriminate | reflexivity].
Defined.

(** At the failing input of C1: the policy store cannot be set up,
    [postUnseal] returns [nil] after it; [Unseal] with the third share then
    reports success and leaves the core unsealed, without the credential,
    expiration and audit set-up having run and without resealing the
    barrier. *)
Lemma postUnseal_drops_policy_store_error :
  postUnseal brokenPolicyStore (mkState newCore [])
    = (None,
       mkState newCore
         [Log "[INFO] core: post-unseal setup starting";
          LoadMounts; SetupMounts; StartRollback; SetupPolicyStore]) /\
  fst (Unseal brokenPolicyStore s4 twoParts) = (true, None) /\
  sealed (core (snd (Unseal brokenPolicyStore s4 twoParts))) = false /\
  barrier_Seal_called (calls (snd (Unseal brokenPolicyStore s4 twoParts))) = false.
Proof.
  split.
  - apply (postUnseal_drops_setup_errors brokenPolicyStore (mkState newCore [])
             (Errorf "policy store unavailable")); reflexivity.
  - repeat split.
Defined.

(** At the failing input of C4: the node becomes leader, loses leadership
    once, and [preSeal] is entered twice, once before and once after the
    lock is given up. *)
Lemma runStandby_preSeal_twice :
  fst (runStandby healthy 2 haStandby) = true /\
  transitions (calls (snd (runStandby healthy 2 haStandby))) = 1%nat /\
  preSeal_runs (calls (snd (runStandby healthy 2 haStandby))) = 2%nat.
Proof.
  assert (Hone : transitions (calls (snd (runStandby healthy 2 haStandby))) = 1%nat)
    by reflexivity.
  split; [reflexivity | split; [exact Hone |]].
  pose proof (runStandby_preSeal_count healthy 2 haStandby) as Hcount.
  rewrite Hone in Hcount. cbn [calls haStandby preSeal_runs transitions filter length] in Hcount.
  lia.
Defined.

(** Unseal monotonicity on the concrete deployment: the first share, the
    same share again (in a buffer of its own), then a second share, on a
    3-of-5 core. *)
Lemma submit_below_threshold_witness :
  Forall (fun r => r = (false, None)) (fst (submit healthy [s1; s1; s2] fresh)) /\
  core (snd (submit healthy [s1; s1; s2] fresh)) = set_unlockParts [s1; s2] newCore /\
  sealed (core (snd (submit healthy [s1; s1; s2] fresh))) = true /\
  fst (SecretProgress (snd (submit healthy [s1; s1; s2] fresh))) = 2.
Proof.
  apply (submit_below_threshold healthy 32 32 (mkEntry coreSealConfigPath [])
           (mkSealConfig 5 3)).
  - intros h. reflexivity.
  - intros h. reflexivity.
  - reflexivity.
  - reflexivity.
  - repeat constructor; by_evaluation.
  - reflexivity.
  - by_evaluation.
Defined.

(** ** Further runs of the model on the concrete deployment *)

(** A key of 15 bytes against a barrier that wants 32. *)
Example Unseal_short_key :
  Unseal healthy (repeat x01 15) fresh
  = ((false, Some (ErrInvalidKey "key is shorter than minimum 32 bytes")),
     mkState newCore [Barrier_KeyLength]).
Proof. reflexivity. Qed.

(** Three of five shares, the first given twice: progress 1, 1, 2, and the
    third distinct share opens the core. *)
Example Unseal_three_of_five :
  fst (SecretProgress onePart) = 1 /\
  fst (SecretProgress (snd (Unseal healthy s1 onePart))) = 1 /\
  fst (SecretProgress twoParts) = 2 /\
  fst (Unseal healthy s4 twoParts) = (true, None) /\
  sealed (core (snd (Unseal healthy s4 twoParts))) = false /\
  standby (core (snd (Unseal healthy s4 twoParts))) = false /\
  unlockParts (core (snd (Unseal healthy s4 twoParts))) = [].
Proof. repeat split. Qed.

(** With an HA backend the same share starts the standby loop instead of
    running [postUnseal], and the core is unsealed but standby. *)
Example Unseal_with_HA :
  let s := mkState (set_unlockParts [s1; s2] newHACore) [] in
  fst (Unseal healthy s4 s) = (true, None) /\
  sealed (core (snd (Unseal healthy s4 s))) = false /\
  standby (core (snd (Unseal healthy s4 s))) = true /\
  existsb (fun c => match c with Go_runStandby => true | _ => false end)
          (calls (snd (Unseal healthy s4 s))) = true /\
  preSeal_runs (calls (snd (Unseal healthy s4 s))) = 0%nat.
Proof. repeat split. Qed.

(** A login: the token is created for the display name made of the mount
    and the user, and its lease is the default. *)
Example login_display_name :
  fst (HandleRequest healthy (request WriteOperation "auth/userpass/login" "") active)
  = (Some (mkResponse None
             (Some (mkAuth "fresh-token" ["default"] [] "userpass-alice" day)) []),
     None).
Proof. reflexivity. Qed.

(** [Seal] wants a token that passes the check on [sys/seal]. *)
Example Seal_needs_root :
  fst (Seal healthy "not-a-token" active) = Some ErrPermissionDenied /\
  sealed (core (snd (Seal healthy "not-a-token" active))) = false /\
  fst (Seal healthy "root-token" active) = None /\
  sealed (core (snd (Seal healthy "root-token" active))) = true /\
  barrier_Seal_called (calls (snd (Seal healthy "root-token" active))) = true.
Proof. repeat split. Qed.
